(** * Navbar: a shallow embedding of [src/app/page.tsx]

    The component is a React function component.  Its hooks are modelled
    the way React runs them: [useState] cells are the fields of a record,
    an effect is a function that runs after a commit and may leave a
    cleanup closure behind, and event handlers are functions from the
    current cells and the browser to the new cells and the browser.
    Calls whose result the component never reads ([onNavigate],
    [scrollIntoView], [setTimeout]) are written to a log. *)

From Stdlib Require Import QArith ZArith Ascii String.
From stdpp Require Import base option list strings gmap pretty.

Local Open Scope string_scope.

(** ** Types and interfaces *)

Module NavSide.
Inductive t := left | right | top | bottom.
End NavSide.

Module Breakpoint.
Inductive t := sm | md | lg.
End Breakpoint.

Record ResponsiveWidth := {
  rw_base : option string;
  rw_md : option string;
  rw_lg : option string
}.

(** JavaScript numbers are read as rationals: the component only compares
    them, divides one by 1000 and hands them to the animation library. *)
Record LogoScale := {
  initial : Q;
  scrolled : Q
}.

Record NavLink := {
  id : string;
  label : string;
  href : string
}.

Record NavbarConfig := {
  side : option NavSide.t;
  width : option (string + ResponsiveWidth);
  initialBg : option string;
  scrolledBg : option string;
  scrollThreshold : option Q;
  logoScale : option LogoScale;
  closeOnRouteChange : option bool;
  trapFocus : option bool;
  disableBodyScrollOnOpen : option bool;
  ariaLabel : option string;
  animateDuration : option Q;
  enableScrollSpy : option bool;
  mobileBreakpoint : option Breakpoint.t
}.

(** [onNavigate] is an opaque caller function; only its presence decides
    what the component does, and a call to it is logged. *)
Record NavbarProps := {
  config : option NavbarConfig;
  links : list NavLink;
  onNavigate : bool
}.

(** The empty object [{}] that [config] defaults to. *)
Definition emptyConfig : NavbarConfig :=
  {| side := None; width := None; initialBg := None; scrolledBg := None;
     scrollThreshold := None; logoScale := None; closeOnRouteChange := None;
     trapFocus := None; disableBodyScrollOnOpen := None; ariaLabel := None;
     animateDuration := None; enableScrollSpy := None;
     mobileBreakpoint := None |}.

(** The destructuring with defaults at the head of [Navbar]. *)
Module Cfg.
Section Resolve.
Variable p : NavbarProps.
Definition cfg : NavbarConfig := default emptyConfig (config p).
Definition side : NavSide.t := default NavSide.right (side cfg).
Definition width : string + ResponsiveWidth :=
  default (inr {| rw_base := Some "100vw"; rw_md := Some "80vw";
                  rw_lg := Some "50vw" |}) (width cfg).
Definition initialBg : string := default "transparent" (initialBg cfg).
Definition scrolledBg : string :=
  default "bg-white/95 shadow-md" (scrolledBg cfg).
Definition scrollThreshold : Q := default (20 # 1) (scrollThreshold cfg).
Definition logoScale : LogoScale :=
  default {| initial := 1 # 1; scrolled := 92 # 100 |} (logoScale cfg).
Definition closeOnRouteChange : bool :=
  default true (closeOnRouteChange cfg).
Definition trapFocus : bool := default true (trapFocus cfg).
Definition disableBodyScrollOnOpen : bool :=
  default true (disableBodyScrollOnOpen cfg).
Definition ariaLabel : string := default "Main navigation" (ariaLabel cfg).
Definition animateDuration : Q := default (300 # 1) (animateDuration cfg).
Definition enableScrollSpy : bool := default false (enableScrollSpy cfg).
Definition mobileBreakpoint : Breakpoint.t :=
  default Breakpoint.md (mobileBreakpoint cfg).
End Resolve.
End Cfg.

(** ** Component state: the [useState] cells *)

Record NavbarState := {
  isOpen : bool;
  currentRoute : string;
  isScrolled : bool;
  activeId : string
}.

(** The initial values handed to the four [useState] calls. *)
Definition initialState : NavbarState :=
  {| isOpen := false; currentRoute := ""; isScrolled := false;
     activeId := "" |}.

Definition setIsOpen (b : bool) (s : NavbarState) : NavbarState :=
  {| isOpen := b; currentRoute := currentRoute s;
     isScrolled := isScrolled s; activeId := activeId s |}.

Definition setCurrentRoute (r : string) (s : NavbarState) : NavbarState :=
  {| isOpen := isOpen s; currentRoute := r;
     isScrolled := isScrolled s; activeId := activeId s |}.

Definition setIsScrolled (b : bool) (s : NavbarState) : NavbarState :=
  {| isOpen := isOpen s; currentRoute := currentRoute s;
     isScrolled := b; activeId := activeId s |}.

Definition setActiveId (a : string) (s : NavbarState) : NavbarState :=
  {| isOpen := isOpen s; currentRoute := currentRoute s;
     isScrolled := isScrolled s; activeId := a |}.

(** ** useScrollState *)

(** The comparison [a > b] on numbers. *)
Definition js_gt (a b : Q) : bool := negb (Qle_bool a b).

(** [handleScroll], reading [window.scrollY]. *)
Definition handleScroll (threshold scrollY : Q) (s : NavbarState)
  : NavbarState :=
  setIsScrolled (js_gt scrollY threshold) s.

(** The two visual presets that hang on [isScrolled] in the top bar: the
    background class, the padding of the bar, the scale of the logo and
    the padding of the inline links. *)
Record BarStyle := {
  bgClass : string;
  paddingTop : string;
  paddingBottom : string;
  currentLogoScale : Q;
  linkPaddingTop : string;
  linkPaddingBottom : string
}.

Definition barStyle (p : NavbarProps) (s : NavbarState) : BarStyle :=
  {| bgClass := if isScrolled s then Cfg.scrolledBg p else Cfg.initialBg p;
     paddingTop := if isScrolled s then "0.75rem" else "1.25rem";
     paddingBottom := if isScrolled s then "0.75rem" else "1.25rem";
     currentLogoScale :=
       if isScrolled s then scrolled (Cfg.logoScale p)
       else initial (Cfg.logoScale p);
     linkPaddingTop := if isScrolled s then "0.5rem" else "0.75rem";
     linkPaddingBottom := if isScrolled s then "0.5rem" else "0.75rem" |}.

Definition scrolledPreset (p : NavbarProps) : BarStyle :=
  {| bgClass := Cfg.scrolledBg p; paddingTop := "0.75rem";
     paddingBottom := "0.75rem";
     currentLogoScale := scrolled (Cfg.logoScale p);
     linkPaddingTop := "0.5rem"; linkPaddingBottom := "0.5rem" |}.

Definition initialPreset (p : NavbarProps) : BarStyle :=
  {| bgClass := Cfg.initialBg p; paddingTop := "1.25rem";
     paddingBottom := "1.25rem";
     currentLogoScale := initial (Cfg.logoScale p);
     linkPaddingTop := "0.75rem"; linkPaddingBottom := "0.75rem" |}.

(** ** The browser as the component sees it *)

(** DOM nodes the component compares by identity or moves focus to.
    [PanelNode n] is the [n]-th descendant of the slide-in panel in
    document order, [ToggleButton] is what [buttonRef] points to, and
    [Elsewhere] stands for [document.body] and every other node. *)
Inductive NodeId :=
| PanelNode (n : nat)
| ToggleButton
| Elsewhere.

#[global] Instance NodeId_eq_dec : EqDecision NodeId.
Proof. solve_decision. Defined.

(** An element as a selector sees it: its lower-case tag name and its
    attributes. *)
Record Element := {
  node : NodeId;
  tagName : string;
  attributes : gmap string string
}.

(** What the component reads from [window] and [document]. *)
Record Window := {
  scrollY : Q;
  innerWidth : Z;
  clientWidth : Z;
  locationHash : string;
  reducedMotion : bool;
  sectionElements : list string
}.

(** *** The style object of the body

    [document.body.style] is the inline declaration block of the body.
    The block holds longhand properties under their camel-case names
    (a [gmap] from name to value); the style object reads and writes it
    the way the browser does, as far as the lock can tell:

    - a dashed name is the camel-case one ([padding-right] is
      [paddingRight]);
    - the shorthands [overflow] and [padding] are read from, and written
      to, their longhands;
    - for these properties a value is a token, a keyword or a length
      without white space, and a declaration the property does not take
      is dropped: more or fewer tokens than the property has, a
      CSS-wide keyword next to another value, a negative padding;
    - writing the empty string removes the declaration.

    What a block could not hold in a browser (a negative padding, a
    value with a space in [overflowX]) is read as not declared.  Which
    keywords and units exist is not modelled: every token that is not a
    negative padding is taken, and the values of all other properties
    are kept as they are written. *)

Definition upper (c : ascii) : ascii :=
  let n := nat_of_ascii c in
  if (97 <=? n)%nat && (n <=? 122)%nat then ascii_of_nat (n - 32) else c.

(** The camel-case name of a property: each [-] goes and the letter after
    it becomes a capital. *)
Fixpoint camelCase (s : string) : string :=
  match s with
  | EmptyString => EmptyString
  | String c r =>
      if Ascii.eqb c "-"%char then
        match r with
        | String d r' => String (upper d) (camelCase r')
        | EmptyString => String c EmptyString
        end
      else String c (camelCase r)
  end.

(** The tokens of a value: the pieces between spaces. *)
Fixpoint wordsFrom (cur s : string) : list string :=
  match s with
  | EmptyString => if String.eqb cur "" then [] else [cur]
  | String c r =>
      if Ascii.eqb c " "%char then
        if String.eqb cur "" then wordsFrom "" r else cur :: wordsFrom "" r
      else wordsFrom (cur +:+ String c "") r
  end.

Definition words (s : string) : list string := wordsFrom "" s.

Fixpoint noSpace (s : string) : bool :=
  match s with
  | EmptyString => true
  | String c r => negb (Ascii.eqb c " "%char) && noSpace r
  end.

Definition isToken (v : string) : bool :=
  negb (String.eqb v "") && noSpace v.

Definition oneOf (k : string) (ks : list string) : bool :=
  existsb (String.eqb k) ks.

(** The keywords every property takes, and only on their own. *)
Definition cssWide (v : string) : bool :=
  oneOf v ["initial"; "inherit"; "unset"; "revert"; "revert-layer"].

Definition nonzeroDigit (c : ascii) : bool :=
  (49 <=? nat_of_ascii c)%nat && (nat_of_ascii c <=? 57)%nat.

(** Whether the digits and dots a number starts with hold a digit other
    than zero. *)
Fixpoint nonzeroMantissa (s : string) : bool :=
  match s with
  | EmptyString => false
  | String c r =>
      if nonzeroDigit c then true
      else if Ascii.eqb c "0"%char || Ascii.eqb c "."%char
           then nonzeroMantissa r
           else false
  end.

(** A negative length or percentage: a minus sign before a number that is
    not zero. *)
Definition negativeToken (v : string) : bool :=
  match v with
  | String c r => Ascii.eqb c "-"%char && nonzeroMantissa r
  | EmptyString => false
  end.

Definition paddingSides : list string :=
  ["paddingTop"; "paddingRight"; "paddingBottom"; "paddingLeft"].

Definition overflowAxes : list string := ["overflowX"; "overflowY"].

(** Whether longhand [k] takes the token [v]: padding takes nothing
    negative. *)
Definition acceptedBy (k v : string) : bool :=
  if oneOf k paddingSides then negb (negativeToken v) else true.

(** The value the block declares for longhand [k], if any. *)
Definition declared (k : string) (m : gmap string string) : option string :=
  match m !! k with
  | Some v =>
      if oneOf k (paddingSides ++ overflowAxes)%list
      then if isToken v && acceptedBy k v then Some v else None
      else if String.eqb v "" then None else Some v
  | None => None
  end.

(** A shorthand reads as the empty string unless all its longhands are
    declared and can be written as one value; the value is the shortest
    one. *)
Definition serializeAxes (x y : option string) : string :=
  match x, y with
  | Some x, Some y =>
      if String.eqb x y then x
      else if cssWide x || cssWide y then ""
      else x +:+ " " +:+ y
  | _, _ => ""
  end.

Definition serializeSides (t r b l : option string) : string :=
  match t, r, b, l with
  | Some t, Some r, Some b, Some l =>
      if String.eqb r t && String.eqb b t && String.eqb l t then t
      else if cssWide t || cssWide r || cssWide b || cssWide l then ""
      else if String.eqb l r then
        if String.eqb b t then t +:+ " " +:+ r
        else t +:+ " " +:+ r +:+ " " +:+ b
      else t +:+ " " +:+ r +:+ " " +:+ b +:+ " " +:+ l
  | _, _, _, _ => ""
  end.

Definition readProp (k : string) (m : gmap string string) : string :=
  if String.eqb k "overflow"
  then serializeAxes (declared "overflowX" m) (declared "overflowY" m)
  else if String.eqb k "padding"
  then serializeSides (declared "paddingTop" m) (declared "paddingRight" m)
         (declared "paddingBottom" m) (declared "paddingLeft" m)
  else default "" (declared k m).

(** The longhand declarations that writing the tokens [ts] to [k] stands
    for, if [k] takes that many tokens. *)
Definition longhandsOf (k : string) (ts : list string)
  : option (list (string * string)) :=
  if String.eqb k "overflow" then
    match ts with
    | [a] => Some [("overflowX", a); ("overflowY", a)]
    | [a; b] =>
        if cssWide a || cssWide b then None
        else Some [("overflowX", a); ("overflowY", b)]
    | _ => None
    end
  else if String.eqb k "padding" then
    match ts with
    | [a] => Some [("paddingTop", a); ("paddingRight", a);
                   ("paddingBottom", a); ("paddingLeft", a)]
    | [a; b] =>
        if cssWide a || cssWide b then None
        else Some [("paddingTop", a); ("paddingRight", b);
                   ("paddingBottom", a); ("paddingLeft", b)]
    | [a; b; c] =>
        if cssWide a || cssWide b || cssWide c then None
        else Some [("paddingTop", a); ("paddingRight", b);
                   ("paddingBottom", c); ("paddingLeft", b)]
    | [a; b; c; d] =>
        if cssWide a || cssWide b || cssWide c || cssWide d then None
        else Some [("paddingTop", a); ("paddingRight", b);
                   ("paddingBottom", c); ("paddingLeft", d)]
    | _ => None
    end
  else
    match ts with
    | [a] => Some [(k, a)]
    | _ => None
    end.

Definition removeProp (k : string) (m : gmap string string)
  : gmap string string :=
  if String.eqb k "overflow"
  then delete "overflowY" (delete "overflowX" m)
  else if String.eqb k "padding"
  then delete "paddingLeft" (delete "paddingBottom"
         (delete "paddingRight" (delete "paddingTop" m)))
  else delete k m.

Definition writeProp (k v : string) (m : gmap string string)
  : gmap string string :=
  if String.eqb v "" then removeProp k m
  else if oneOf k (["overflow"; "padding"] ++ paddingSides
                     ++ overflowAxes)%list
  then match longhandsOf k (words v) with
       | Some kvs =>
           if forallb (λ kv, acceptedBy kv.1 kv.2) kvs
           then foldl (λ m' kv, <[kv.1 := kv.2]> m') m kvs
           else m
       | None => m
       end
  else <[k := v]> m.

(** [style[k]] and [style[k] = v]. *)
Definition styleGet (k : string) (st : gmap string string) : string :=
  readProp (camelCase k) st.

Definition styleSet (k v : string) (st : gmap string string)
  : gmap string string :=
  writeProp (camelCase k) v st.

(** [document.getElementById]: the ids of the page's elements. *)
Definition getElementById (w : Window) (i : string) : option string :=
  if bool_decide (i ∈ sectionElements w) then Some i else None.

(** Calls the component makes and never reads back. *)
Inductive Call :=
| CallOnNavigate (href : string)
| CallScrollIntoViewSmooth (element : string)
| CallSetTimeoutFocusButton (ms : nat).

(** ** useLockBodyScroll *)

(** The two constants the cleanup closure captures. *)
Record LockCleanup := {
  originalOverflow : string;
  originalPaddingRight : string
}.

(** The template literal [`${scrollbarWidth}px`]: both operands of the
    subtraction are integers, printed in decimal. *)
Definition px (n : Z) : string := pretty n +:+ "px".

(** The effect body: the new body style and the cleanup it returns, if
    any. *)
Definition useLockBodyScroll_effect (lock : bool) (w : Window)
    (body : gmap string string)
  : gmap string string * option LockCleanup :=
  if negb lock then (body, None)
  else
    let originalOverflow := styleGet "overflow" body in
    let originalPaddingRight := styleGet "paddingRight" body in
    let scrollbarWidth := (innerWidth w - clientWidth w)%Z in
    let body1 := styleSet "overflow" "hidden" body in
    let body2 := styleSet "paddingRight" (px scrollbarWidth) body1 in
    (body2, Some {| originalOverflow := originalOverflow;
                    originalPaddingRight := originalPaddingRight |}).

Definition useLockBodyScroll_cleanup (c : LockCleanup)
    (body : gmap string string) : gmap string string :=
  styleSet "paddingRight" (originalPaddingRight c)
    (styleSet "overflow" (originalOverflow c) body).

Definition runLockCleanup (c : option LockCleanup)
    (body : gmap string string) : gmap string string :=
  match c with
  | Some c => useLockBodyScroll_cleanup c body
  | None => body
  end.

(** ** useScrollSpy *)

Record IntersectionObserverEntry := {
  isIntersecting : bool
}.

(** The callback of the observer created for section [i]. *)
Definition observerCallback (i : string)
    (entries : list IntersectionObserverEntry) (s : NavbarState)
  : NavbarState :=
  match entries !! 0%nat with
  | None => s
  | Some entry => if isIntersecting entry then setActiveId i s else s
  end.

(** The effect body: one observer per section id whose element exists;
    [null] entries of the mapped array are dropped here, as
    [observer?.disconnect()] skips them.  [w] is the document when the
    effect runs.  [sectionIds] is a fresh array at every render, so the
    code runs the effect again after each one, against the document of
    that moment; [Sys] keeps the observers of the run at mount. *)
Definition useScrollSpy_effect (sectionIds : list string) (enabled : bool)
    (w : Window) : list string :=
  if negb enabled then []
  else omap (getElementById w) sectionIds.

(** ** useFocusTrap *)

Record KeyboardEvent := {
  key : string;
  shiftKey : bool
}.

Definition hasAttr (a : string) (e : Element) : bool :=
  bool_decide (is_Some (attributes e !! a)).

(** The selector list handed to [querySelectorAll]:
    [a[href], button:not([disabled]), textarea, input, select,
    [tabindex]:not([tabindex="-1"])]. *)
Definition matchesFocusable (e : Element) : bool :=
  (String.eqb (tagName e) "a" && hasAttr "href" e)
  || (String.eqb (tagName e) "button" && negb (hasAttr "disabled" e))
  || String.eqb (tagName e) "textarea"
  || String.eqb (tagName e) "input"
  || String.eqb (tagName e) "select"
  || (hasAttr "tabindex" e
      && negb (bool_decide (attributes e !! "tabindex" = Some "-1"))).

(** [container.querySelectorAll(...)] over the container's descendants in
    document order. *)
Definition querySelectorAll (descendants : list Element) : list Element :=
  filter (λ e, matchesFocusable e = true) descendants.

(** What [handleTab] closes over. *)
Record TrapClosure := {
  firstElement : option Element;
  lastElement : option Element
}.

Definition trapClosure (descendants : list Element) : TrapClosure :=
  let focusableElements := querySelectorAll descendants in
  {| firstElement := focusableElements !! 0%nat;
     lastElement := last focusableElements |}.

(** [document.activeElement === el], where [el] may be [null]. *)
Definition isActiveElement (active : NodeId) (el : option Element) : bool :=
  match el with
  | Some e => bool_decide (active = node e)
  | None => false
  end.

(** [el?.focus()]. *)
Definition focusOpt (el : option Element) (active : NodeId) : NodeId :=
  match el with
  | Some e => node e
  | None => active
  end.

(** [handleTab]: whether [preventDefault] was called, and the focused
    node afterwards. *)
Definition handleTab (c : TrapClosure) (e : KeyboardEvent)
    (active : NodeId) : bool * NodeId :=
  if negb (String.eqb (key e) "Tab") then (false, active)
  else if shiftKey e then
    if isActiveElement active (firstElement c)
    then (true, focusOpt (lastElement c) active)
    else (false, active)
  else
    if isActiveElement active (lastElement c)
    then (true, focusOpt (firstElement c) active)
    else (false, active).

(** The effect body: the listener it registers and the focus after
    [firstElement?.focus()].  [container] is [containerRef.current]. *)
Definition useFocusTrap_effect (isOpen : bool)
    (container : option (list Element)) (active : NodeId)
  : option TrapClosure * NodeId :=
  if negb isOpen then (None, active)
  else match container with
       | None => (None, active)
       | Some descendants =>
           let c := trapClosure descendants in
           (Some c, focusOpt (firstElement c) active)
       end.

(** ** Navbar: what a render computes *)

(** A string used as a condition is true when it is not empty. *)
Definition truthy (s : string) : bool := negb (String.eqb s "").

(** [activeLink = enableScrollSpy ? activeScrollSpyId : currentRoute]. *)
Definition activeLink (p : NavbarProps) (s : NavbarState) : string :=
  if Cfg.enableScrollSpy p then activeId s else currentRoute s.

(** [isActive] of one rendered link. *)
Definition isActive (p : NavbarProps) (s : NavbarState) (l : NavLink)
  : bool :=
  String.eqb (activeLink p s) (href l) || String.eqb (activeLink p s) (id l).

Definition sectionIds (p : NavbarProps) : list string := map id (links p).

Definition breakpointClass (p : NavbarProps) : string :=
  match Cfg.mobileBreakpoint p with
  | Breakpoint.sm => "sm"
  | Breakpoint.lg => "lg"
  | Breakpoint.md => "md"
  end.

(** A [ReferenceError] is what touching an undeclared global throws. *)
Inductive Thrown :=
| ReferenceError (name : string).

(** [typeof window !== "undefined"] never throws. *)
Definition typeofWindowDefined (env : option Window) : bool :=
  match env with Some _ => true | None => false end.

(** [window.matchMedia("(prefers-reduced-motion: reduce)").matches]. *)
Definition matchMediaReduce (env : option Window) : Thrown + bool :=
  match env with
  | Some w => inr (reducedMotion w)
  | None => inl (ReferenceError "window")
  end.

(** [a && b] evaluates [b] only when [a] is true. *)
Definition prefersReducedMotion (env : option Window) : Thrown + bool :=
  if typeofWindowDefined env then matchMediaReduce env else inr false.

Definition durationOf (p : NavbarProps) (reduce : bool) : Q :=
  if reduce then 0%Q else (Cfg.animateDuration p / (1000 # 1))%Q.

(** What the returned markup shows of the state. *)
Record View := {
  v_bar : BarStyle;
  v_duration : Q;
  v_ariaLabel : string;
  v_breakpointClass : string;
  v_desktopLinks : list (NavLink * bool);
  v_ariaExpanded : bool;
  v_panel : option (NavSide.t * list (NavLink * bool))
}.

(** One call of the function component with the hook cells [s].  The
    hooks only register their effects during the call; nothing but the
    media query reads a browser global. *)
Definition Navbar (p : NavbarProps) (env : option Window) (s : NavbarState)
  : Thrown + View :=
  match prefersReducedMotion env with
  | inl err => inl err
  | inr reduce =>
      let rendered := map (λ l, (l, isActive p s l)) (links p) in
      inr {| v_bar := barStyle p s;
             v_duration := durationOf p reduce;
             v_ariaLabel := Cfg.ariaLabel p;
             v_breakpointClass := breakpointClass p;
             v_desktopLinks := rendered;
             v_ariaExpanded := isOpen s;
             v_panel := if isOpen s then Some (Cfg.side p, rendered)
                        else None |}
  end.

(** Rendering where there is no [window]: effects never run, so the
    cells are the ones [useState] was given. *)
Definition renderOnServer (p : NavbarProps) : Thrown + View :=
  Navbar p None initialState.

(** The descendants of the panel ([menuRef.current]) in document order:
    the wrapper of the close button, the close button and its icon, the
    [nav], the [ul], and an [li] with its anchor per link.  Only the
    attributes a selector of this file can read are listed. *)
Definition panelElement (n : nat) (tag : string)
    (attrs : list (string * string)) : Element :=
  {| node := PanelNode n; tagName := tag; attributes := list_to_map attrs |}.

Definition panelLink (i : nat) (l : NavLink) : list Element :=
  [ panelElement (5 + 2 * i) "li" [];
    panelElement (6 + 2 * i) "a" [("href", href l)] ].

Definition closeButton : Element :=
  panelElement 1 "button" [("aria-label", "Close navigation menu")].

Definition panelHead : list Element :=
  [ panelElement 0 "div" [];
    closeButton;
    panelElement 2 "svg" [];
    panelElement 3 "nav" [];
    panelElement 4 "ul" [] ].

Definition panelDescendants (ls : list NavLink) : list Element :=
  (panelHead ++ mjoin (imap panelLink ls))%list.

(** [menuRef.current] when the effects of a commit run: the panel is in
    the tree exactly while [isOpen] (the exit animation keeps it a
    little longer, but then the trap's effect returns early). *)
Definition menuRef (p : NavbarProps) (s : NavbarState)
  : option (list Element) :=
  if isOpen s then Some (panelDescendants (links p)) else None.

(** ** The mounted component *)

Record Sys := {
  cells : NavbarState;
  bodyStyle : gmap string string;
  activeElement : NodeId;
  lockCleanup : option LockCleanup;
  trapListener : option TrapClosure;
  observers : list string;
  timers : nat;
  calls : list Call
}.

Definition withCells (f : NavbarState → NavbarState) (y : Sys) : Sys :=
  {| cells := f (cells y); bodyStyle := bodyStyle y;
     activeElement := activeElement y; lockCleanup := lockCleanup y;
     trapListener := trapListener y; observers := observers y;
     timers := timers y; calls := calls y |}.

Definition withFocus (a : NodeId) (y : Sys) : Sys :=
  {| cells := cells y; bodyStyle := bodyStyle y;
     activeElement := a; lockCleanup := lockCleanup y;
     trapListener := trapListener y; observers := observers y;
     timers := timers y; calls := calls y |}.

Definition logCall (c : Call) (y : Sys) : Sys :=
  {| cells := cells y; bodyStyle := bodyStyle y;
     activeElement := activeElement y; lockCleanup := lockCleanup y;
     trapListener := trapListener y; observers := observers y;
     timers := timers y; calls := calls y ++ [c] |}.

(** [closeMenu]. *)
Definition closeMenu (y : Sys) : Sys :=
  let y1 := withCells (setIsOpen false) y in
  let y2 := logCall (CallSetTimeoutFocusButton 100) y1 in
  {| cells := cells y2; bodyStyle := bodyStyle y2;
     activeElement := activeElement y2; lockCleanup := lockCleanup y2;
     trapListener := trapListener y2; observers := observers y2;
     timers := S (timers y2); calls := calls y2 |}.

(** [handleEscape]; the effect that registers it depends on [isOpen], so
    the handler always reads the current cell. *)
Definition handleEscape (e : KeyboardEvent) (y : Sys) : Sys :=
  if String.eqb (key e) "Escape" && isOpen (cells y) then closeMenu y
  else y.

(** [href.replace("#", "")]: the first [#] is dropped. *)
Fixpoint replaceHash (s : string) : string :=
  match s with
  | EmptyString => EmptyString
  | String c r =>
      if Ascii.eqb c "#"%char then r else String c (replaceHash r)
  end.

(** [handleLinkClick]. *)
Definition handleLinkClick (p : NavbarProps) (w : Window) (h : string)
    (y : Sys) : Sys :=
  let y1 := if Cfg.closeOnRouteChange p then closeMenu y else y in
  let y2 := withCells (setCurrentRoute h) y1 in
  if onNavigate p then logCall (CallOnNavigate h) y2
  else if Cfg.enableScrollSpy p then
    match getElementById w (replaceHash h) with
    | Some element => logCall (CallScrollIntoViewSmooth element) y2
    | None => y2
    end
  else y2.

Definition handleBackdropClick (y : Sys) : Sys := closeMenu y.

(** [window.location.hash || links[0]?.href || ""]. *)
Definition routeAtMount (p : NavbarProps) (w : Window) : string :=
  if truthy (locationHash w) then locationHash w
  else match links p !! 0%nat with
       | Some l => if truthy (href l) then href l else ""
       | None => ""
       end.

(** The argument of [useLockBodyScroll]. *)
Definition lockOf (p : NavbarProps) (s : NavbarState) : bool :=
  isOpen s && Cfg.disableBodyScrollOnOpen p.

(** React's rule for an effect with a dependency list: after a render in
    which a dependency changed, the cleanup left by the previous run is
    called and the effect body runs again.  This is followed for the
    lock and for the trap.  The scroll-spy effect, which the code also
    runs again after every render, is run at mount only: [observers]
    are the observers built then. *)
Definition commitLock (p : NavbarProps) (w : Window) (prev : NavbarState)
    (y : Sys) : Sys :=
  if Bool.eqb (lockOf p prev) (lockOf p (cells y)) then y
  else
    let body0 := runLockCleanup (lockCleanup y) (bodyStyle y) in
    let r := useLockBodyScroll_effect (lockOf p (cells y)) w body0 in
    {| cells := cells y; bodyStyle := r.1;
       activeElement := activeElement y; lockCleanup := r.2;
       trapListener := trapListener y; observers := observers y;
       timers := timers y; calls := calls y |}.

(** [if (trapFocus) useFocusTrap(isOpen, menuRef)]: the cleanup removes
    the old listener, the body may register a new one. *)
Definition commitTrap (p : NavbarProps) (prev : NavbarState) (y : Sys)
  : Sys :=
  if negb (Cfg.trapFocus p) then y
  else if Bool.eqb (isOpen prev) (isOpen (cells y)) then y
  else
    let r := useFocusTrap_effect (isOpen (cells y)) (menuRef p (cells y))
               (activeElement y) in
    {| cells := cells y; bodyStyle := bodyStyle y;
       activeElement := r.2; lockCleanup := lockCleanup y;
       trapListener := r.1; observers := observers y;
       timers := timers y; calls := calls y |}.

Definition commit (p : NavbarProps) (w : Window) (prev : NavbarState)
    (y : Sys) : Sys :=
  commitTrap p prev (commitLock p w prev y).

(** Mounting in a browser whose body style is [body] and whose focus is
    on [focus]: the cells start from [initialState] and the effects run
    in source order.  The panel is closed, so the lock and the trap
    return early. *)
Definition mount (p : NavbarProps) (w : Window) (body : gmap string string)
    (focus : NodeId) : Sys :=
  let s1 := handleScroll (Cfg.scrollThreshold p) (scrollY w) initialState in
  let s2 := setCurrentRoute (routeAtMount p w) s1 in
  {| cells := s2;
     bodyStyle := (useLockBodyScroll_effect (lockOf p initialState) w body).1;
     activeElement := focus;
     lockCleanup := (useLockBodyScroll_effect (lockOf p initialState) w body).2;
     trapListener := None;
     observers := useScrollSpy_effect (sectionIds p) (Cfg.enableScrollSpy p) w;
     timers := 0; calls := [] |}.

(** What can happen to a mounted component.  A key press carries the node
    the browser would move focus to by default. *)
Inductive Event :=
| EvScroll (y : Q)
| EvClickToggle
| EvClickClose
| EvClickBackdrop
| EvClickLink (l : NavLink)
| EvKeyDown (e : KeyboardEvent) (dflt : NodeId)
| EvIntersect (i : string) (entries : list IntersectionObserverEntry)
| EvTimeout.

(** A key press goes to the listener on the panel when the focused node
    is inside it, then to the listener on [document]. *)
Definition keyDown (e : KeyboardEvent) (dflt : NodeId) (y : Sys) : Sys :=
  let r :=
    match trapListener y, activeElement y with
    | Some c, PanelNode _ => handleTab c e (activeElement y)
    | _, _ => (false, activeElement y)
    end in
  let a :=
    if r.1 then r.2
    else if String.eqb (key e) "Tab" then dflt else r.2 in
  handleEscape e (withFocus a y).

Definition dispatch (p : NavbarProps) (w : Window) (ev : Event) (y : Sys)
  : Sys :=
  match ev with
  | EvScroll pos => withCells (handleScroll (Cfg.scrollThreshold p) pos) y
  | EvClickToggle => withCells (setIsOpen true) y
  | EvClickClose => closeMenu y
  | EvClickBackdrop => handleBackdropClick y
  | EvClickLink l => handleLinkClick p w (href l) y
  | EvKeyDown e dflt => keyDown e dflt y
  | EvIntersect i entries =>
      if bool_decide (i ∈ observers y)
      then withCells (observerCallback i entries) y
      else y
  | EvTimeout =>
      match timers y with
      | O => y
      | S n =>
          {| cells := cells y; bodyStyle := bodyStyle y;
             activeElement := ToggleButton; lockCleanup := lockCleanup y;
             trapListener := trapListener y; observers := observers y;
             timers := n; calls := calls y |}
      end
  end.

(** One event: the handler, then the render and its effects. *)
Definition step (p : NavbarProps) (w : Window) (y : Sys) (ev : Event)
  : Sys :=
  commit p w (cells y) (dispatch p w ev y).

Definition run (p : NavbarProps) (w : Window) (y : Sys) (evs : list Event)
  : Sys :=
  foldl (step p w) y evs.


(** ** Notions the properties below are stated with *)

(** One call of an observer's callback. *)
Record Report := {
  target : string;
  entries : list IntersectionObserverEntry
}.

Definition deliver (s : NavbarState) (r : Report) : NavbarState :=
  observerCallback (target r) (entries r) s.

(** A report whose entry says the section intersects. *)
Definition reportIntersecting (r : Report) : bool :=
  match entries r with
  | e :: _ => isIntersecting e
  | [] => false
  end.

(** The target of the last intersecting report of a sequence. *)
Fixpoint lastIntersecting (rs : list Report) : option string :=
  match rs with
  | [] => None
  | r :: rs' =>
      match lastIntersecting rs' with
      | Some t => Some t
      | None => if reportIntersecting r then Some (target r) else None
      end
  end.

(** The links a render marks active. *)
Definition activeLinks (p : NavbarProps) (s : NavbarState) : list NavLink :=
  filter (λ l, isActive p s l = true) (links p).

(** The focusable elements as the specification lists them: links,
    buttons that are not disabled, textareas, inputs, selects, and
    elements with a non-negative tabindex. *)
Module Spec.
Definition isDigit (c : ascii) : bool :=
  (48 <=? nat_of_ascii c)%nat && (nat_of_ascii c <=? 57)%nat.

Definition nonNegativeTabindex (e : Element) : bool :=
  match attributes e !! "tabindex" with
  | Some v => truthy v && forallb isDigit (list_ascii_of_string v)
  | None => false
  end.

Definition focusable (e : Element) : bool :=
  (String.eqb (tagName e) "a" && hasAttr "href" e)
  || (String.eqb (tagName e) "button" && negb (hasAttr "disabled" e))
  || String.eqb (tagName e) "textarea"
  || String.eqb (tagName e) "input"
  || String.eqb (tagName e) "select"
  || nonNegativeTabindex e.
End Spec.

(** Whether reading property [k] can tell a write to [overflow] or to
    [paddingRight] apart from no write: the two themselves, the longhands
    of [overflow] and the shorthand of [paddingRight]. *)
Definition tiedToLock (k : string) : bool :=
  oneOf (camelCase k)
    ["overflow"; "overflowX"; "overflowY"; "padding"; "paddingRight"].

(** The right padding while the lock is on: the measured width, unless
    that is negative and the style object has dropped it. *)
Definition lockedPaddingRight (w : Window) (body0 : gmap string string)
  : string :=
  if (0 <=? innerWidth w - clientWidth w)%Z
  then px (innerWidth w - clientWidth w)
  else styleGet "paddingRight" body0.

(** The body style the lock is meant to give, read at property [k], when
    the style at mount was [body0]. *)
Definition expectedStyle (w : Window) (body0 : gmap string string)
    (lock : bool) (k : string) : string :=
  if lock then
    if decide (k = "overflow") then "hidden"
    else if decide (k = "paddingRight")
         then lockedPaddingRight w body0
         else styleGet k body0
  else styleGet k body0.

(** The invariant of the lock: a cleanup is pending exactly while the
    lock is on, it holds the values of [body0], and the body style is the
    expected one at [overflow], at [paddingRight] and at every property
    that is not tied to them. *)
Definition lockInv (p : NavbarProps) (w : Window)
    (body0 : gmap string string) (y : Sys) : Prop :=
  lockCleanup y =
    (if lockOf p (cells y)
     then Some {| originalOverflow := styleGet "overflow" body0;
                  originalPaddingRight := styleGet "paddingRight" body0 |}
     else None)
  ∧ ∀ k, k = "overflow" ∨ k = "paddingRight" ∨ tiedToLock k = false →
         styleGet k (bodyStyle y)
         = expectedStyle w body0 (lockOf p (cells y)) k.

(** The calls a handler added to the log of [y]. *)
Definition callsSince (y y' : Sys) : list Call :=
  drop (length (calls y)) (calls y').

(** The calls one link click adds to the log: the timer of [closeMenu]
    when the panel is to close, then the callback or the smooth scroll. *)
Definition clickCalls (p : NavbarProps) (w : Window) (h : string)
  : list Call :=
  ((if Cfg.closeOnRouteChange p then [CallSetTimeoutFocusButton 100] else [])
  ++ (if onNavigate p then [CallOnNavigate h]
      else if Cfg.enableScrollSpy p then
        match getElementById w (replaceHash h) with
        | Some element => [CallScrollIntoViewSmooth element]
        | None => []
        end
      else []))%list.

(** An element of the panel: a node of the panel that carries no
    [tabindex] attribute. *)
Definition panelShape (e : Element) : Prop :=
  (∃ n, node e = PanelNode n) ∧ attributes e !! "tabindex" = None.

Definition reportEvent (r : Report) : Event :=
  EvIntersect (target r) (entries r).

Definition isIntersect (ev : Event) : bool :=
  match ev with
  | EvIntersect _ _ => true
  | _ => false
  end.

Definition tabKey : KeyboardEvent := {| key := "Tab"; shiftKey := false |}.
Definition shiftTabKey : KeyboardEvent := {| key := "Tab"; shiftKey := true |}.
Definition escapeKey (shift : bool) : KeyboardEvent :=
  {| key := "Escape"; shiftKey := shift |}.

(** ** Sample data: the two-link list of the specification's example *)

Module Sample.
Definition hero : NavLink :=
  {| id := "hero"; label := "Home"; href := "#hero" |}.
Definition about : NavLink :=
  {| id := "about"; label := "About"; href := "#about" |}.

Definition props (spy : bool) : NavbarProps :=
  {| config := Some {| side := None; width := None; initialBg := None;
                       scrolledBg := None; scrollThreshold := None;
                       logoScale := None; closeOnRouteChange := None;
                       trapFocus := None; disableBodyScrollOnOpen := None;
                       ariaLabel := None; animateDuration := None;
                       enableScrollSpy := Some spy;
                       mobileBreakpoint := None |};
     links := [hero; about];
     onNavigate := false |}.

Definition page (hash : string) : Window :=
  {| scrollY := 0; innerWidth := 1024; clientWidth := 1009;
     locationHash := hash; reducedMotion := false;
     sectionElements := ["hero"; "about"] |}.

(** A body that already carries a style of its own. *)
Definition body : gmap string string :=
  styleSet "color" "red" (styleSet "overflow" "auto" ∅).

Definition mounted (spy : bool) (hash : string) : Sys :=
  mount (props spy) (page hash) body Elsewhere.

(** The same component after a click on the toggle button. *)
Definition opened (spy : bool) (hash : string) : Sys :=
  step (props spy) (page hash) (mounted spy hash) EvClickToggle.

(** A link list whose first link has an empty href. *)
Definition home : NavLink := {| id := "home"; label := "Home"; href := "" |}.

Definition homeProps : NavbarProps :=
  {| config := config (props true); links := [home; about];
     onNavigate := false |}.

Definition entry (b : bool) : IntersectionObserverEntry :=
  {| isIntersecting := b |}.

Definition reports : list Report :=
  [ {| target := "hero"; entries := [entry true] |};
    {| target := "about"; entries := [entry true; entry false] |};
    {| target := "hero"; entries := [entry false] |};
    {| target := "about"; entries := [] |} ].
End Sample.

(** ** Notions for the properties of whole runs *)

(** The scroll position the listener saw last, [pos] if it never ran
    again. *)
Fixpoint lastScroll (evs : list Event) (pos : Q) : Q :=
  match evs with
  | [] => pos
  | EvScroll q :: evs' => lastScroll evs' q
  | _ :: evs' => lastScroll evs' pos
  end.

(** The href of the link clicked last, [route] if none was clicked. *)
Fixpoint lastClicked (evs : list Event) (route : string) : string :=
  match evs with
  | [] => route
  | EvClickLink l :: evs' => lastClicked evs' (href l)
  | _ :: evs' => lastClicked evs' route
  end.

(** A click on the close button of the panel or on the backdrop. *)
Definition closeClick (backdrop : bool) : Event :=
  if backdrop then EvClickBackdrop else EvClickClose.

(** A string without [#]. *)
Fixpoint noHash (s : string) : bool :=
  match s with
  | EmptyString => true
  | String c r => negb (Ascii.eqb c "#"%char) && noHash r
  end.

(** The anchor of the [i]-th link in the panel. *)
Definition panelAnchor (i : nat) (l : NavLink) : Element :=
  panelElement (6 + 2 * i) "a" [("href", href l)].

(** The listener the focus trap has registered when the cells are [s]. *)
Definition trapOf (p : NavbarProps) (s : NavbarState)
  : option TrapClosure :=
  if Cfg.trapFocus p && isOpen s
  then Some (trapClosure (panelDescendants (links p)))
  else None.

(** Where a logged call can come from, given the events so far. *)
Definition callOrigin (p : NavbarProps) (w : Window) (evs : list Event)
    (c : Call) : Prop :=
  match c with
  | CallOnNavigate h =>
      onNavigate p = true ∧ ∃ l, EvClickLink l ∈ evs ∧ h = href l
  | CallScrollIntoViewSmooth el =>
      onNavigate p = false ∧ Cfg.enableScrollSpy p = true
      ∧ el ∈ sectionElements w
      ∧ ∃ l, EvClickLink l ∈ evs ∧ el = replaceHash (href l)
  | CallSetTimeoutFocusButton ms => ms = 100%nat
  end.

(** More sample data: a component without links, one with the lock and
    the trap switched off, and a key that is neither Tab nor Escape. *)
Module Cases.
Definition noLinks : NavbarProps :=
  {| config := None; links := []; onNavigate := false |}.

Definition bare : NavbarProps :=
  {| config := Some {| side := None; width := None; initialBg := None;
                       scrolledBg := None; scrollThreshold := None;
                       logoScale := None; closeOnRouteChange := Some false;
                       trapFocus := Some false;
                       disableBodyScrollOnOpen := Some false;
                       ariaLabel := None; animateDuration := None;
                       enableScrollSpy := Some false;
                       mobileBreakpoint := None |};
     links := [Sample.hero; Sample.about];
     onNavigate := true |}.

Definition keyA : KeyboardEvent := {| key := "a"; shiftKey := false |}.



End Cases.

(** * Properties *)

(** ** Numbers *)

Lemma js_gt_true (a b : Q) : js_gt a b = true <-> (b < a)%Q.
Proof.
  unfold js_gt. rewrite negb_true_iff, <- not_true_iff_false, Qle_bool_iff.
  split; [apply Qnot_le_lt | apply Qlt_not_le].
Qed.

Lemma js_gt_false (a b : Q) : js_gt a b = false <-> (a <= b)%Q.
Proof.
  unfold js_gt. rewrite negb_false_iff. apply Qle_bool_iff.
Qed.

(** ** Effects leave the cells alone *)

Lemma commitLock_cells p w prev y : cells (commitLock p w prev y) = cells y.
Proof. unfold commitLock. by destruct (Bool.eqb _ _). Qed.

Lemma commitTrap_cells p prev y : cells (commitTrap p prev y) = cells y.
Proof.
  unfold commitTrap. destruct (negb _); [done|]. by destruct (Bool.eqb _ _).
Qed.

Lemma commit_cells p w prev y : cells (commit p w prev y) = cells y.
Proof. unfold commit. by rewrite commitTrap_cells, commitLock_cells. Qed.

Lemma step_cells p w y ev : cells (step p w y ev) = cells (dispatch p w ev y).
Proof. apply commit_cells. Qed.

(** ** useScrollState *)

Lemma presets_differ p : scrolledPreset p ≠ initialPreset p.
Proof. unfold scrolledPreset, initialPreset. intros H. discriminate H. Qed.

Lemma barStyle_cases p s :
  barStyle p s = if isScrolled s then scrolledPreset p else initialPreset p.
Proof. unfold barStyle. by destruct (isScrolled s). Qed.

(** C1.  After the scroll listener has run at scroll position [pos] (on a
    scroll event, or at mount with the position of the page), the top bar
    shows the scrolled preset (background, padding, logo scale) if and
    only if [pos] is strictly greater than the threshold, and the initial
    preset otherwise; at [pos] equal to the threshold it shows the
    initial preset. *)
Theorem C1_scrolled_iff_above_threshold (p : NavbarProps) (w : Window)
    (body : gmap string string) (focus : NodeId) (y : Sys) (pos : Q) :
  let t := Cfg.scrollThreshold p in
  let afterScroll := cells (step p w y (EvScroll pos)) in
  let afterMount := cells (mount p w body focus) in
  (barStyle p afterScroll = scrolledPreset p <-> (t < pos)%Q)
  ∧ (barStyle p afterScroll = initialPreset p <-> (pos <= t)%Q)
  ∧ (barStyle p afterMount = scrolledPreset p <-> (t < scrollY w)%Q)
  ∧ (barStyle p afterMount = initialPreset p <-> (scrollY w <= t)%Q)
  ∧ barStyle p (cells (step p w y (EvScroll t))) = initialPreset p.
Proof.
  intros t afterScroll afterMount.
  assert (Hcase : ∀ s q,
    (barStyle p (handleScroll t q s) = scrolledPreset p <-> (t < q)%Q)
    ∧ (barStyle p (handleScroll t q s) = initialPreset p <-> (q <= t)%Q)).
  { intros s q. rewrite barStyle_cases.
    cbn [handleScroll setIsScrolled isScrolled].
    destruct (js_gt q t) eqn:E.
    - apply js_gt_true in E. split; split; intros H; auto.
      + exfalso. by apply (presets_differ p).
      + exfalso. by apply (Qle_not_lt _ _ H).
    - apply js_gt_false in E. split; split; intros H; auto.
      + exfalso. by apply (presets_differ p).
      + exfalso. by apply (Qle_not_lt _ _ E). }
  assert (Hs : ∀ q,
    cells (step p w y (EvScroll q)) = handleScroll t q (cells y)).
  { intros q. by rewrite step_cells. }
  assert (Hm : barStyle p afterMount
               = barStyle p (handleScroll t (scrollY w) initialState)).
  { done. }
  unfold afterScroll. rewrite !Hs, Hm.
  destruct (Hcase (cells y) pos) as [H1 H2].
  destruct (Hcase initialState (scrollY w)) as [H3 H4].
  destruct (Hcase (cells y) t) as [_ H5].
  split; [exact H1|]. split; [exact H2|]. split; [exact H3|].
  split; [exact H4|]. apply H5, Qle_refl.
Qed.

(** ** useLockBodyScroll *)

(** *** The style object *)

Lemma app_cons c x y : String c x +:+ y = String c (x +:+ y).
Proof. done. Qed.

Lemma app_nil_l y : "" +:+ y = y.
Proof. done. Qed.

Lemma append_cons_assoc cur c r :
  (cur +:+ String c "") +:+ r = cur +:+ String c r.
Proof.
  induction cur as [|d cur IH]; [done|]. rewrite !app_cons. by rewrite IH.
Qed.

Lemma append_empty_r s : s +:+ "" = s.
Proof. induction s as [|c s IH]; [done|]. rewrite app_cons. by rewrite IH. Qed.

Lemma wordsFrom_noSpace x cur s :
  noSpace x = true → wordsFrom cur (x +:+ s) = wordsFrom (cur +:+ x) s.
Proof.
  revert cur. induction x as [|c x IH]; intros cur H.
  - by rewrite append_empty_r.
  - cbn [noSpace] in H. apply andb_true_iff in H as [Hc Hx].
    apply negb_true_iff in Hc. rewrite app_cons. cbn [wordsFrom].
    rewrite Hc, IH by done. by rewrite append_cons_assoc.
Qed.

Lemma isToken_spec v : isToken v = true → v ≠ "" ∧ noSpace v = true.
Proof.
  unfold isToken. intros [H1 H2]%andb_true_iff.
  apply negb_true_iff, String.eqb_neq in H1. done.
Qed.

Lemma words_token v : isToken v = true → words v = [v].
Proof.
  intros [Hne Hs]%isToken_spec. unfold words.
  rewrite <- (append_empty_r v) at 1. rewrite wordsFrom_noSpace by done.
  rewrite app_nil_l. cbn [wordsFrom]. apply String.eqb_neq in Hne.
  by rewrite Hne.
Qed.

Lemma words_two x y :
  isToken x = true → isToken y = true → words (x +:+ " " +:+ y) = [x; y].
Proof.
  intros [Hx Hsx]%isToken_spec Hy. unfold words.
  rewrite wordsFrom_noSpace by done. rewrite app_nil_l.
  change (" " +:+ y) with (String " " y). cbn [wordsFrom Ascii.eqb Bool.eqb].
  apply String.eqb_neq in Hx. rewrite Hx. f_equal.
  by apply words_token.
Qed.

Lemma append_space_nonempty x y : String.eqb (x +:+ " " +:+ y) "" = false.
Proof. by destruct x. Qed.

Lemma noSpace_app a b : noSpace (a +:+ b) = noSpace a && noSpace b.
Proof.
  induction a as [|c a IH]; [done|]. rewrite app_cons. cbn [noSpace].
  by rewrite IH, andb_assoc.
Qed.

Lemma pretty_N_char_digit x :
  Ascii.eqb (pretty_N_char x) " "%char = false
  ∧ Ascii.eqb (pretty_N_char x) "-"%char = false.
Proof. unfold pretty_N_char. by repeat case_match. Qed.

Lemma pretty_N_go_noSpace x s :
  noSpace s = true → noSpace (pretty_N_go x s) = true.
Proof.
  revert s. induction (N.lt_wf_0 x) as [x _ IH]; intros s Hs.
  assert (x = 0 ∨ 0 < x)%N as [->|Hx] by lia; [done|].
  rewrite pretty_N_go_step by done. apply IH; [by apply N.div_lt|].
  cbn [noSpace]. by rewrite (proj1 (pretty_N_char_digit _)), Hs.
Qed.

Lemma pretty_N_go_head x s :
  (0 < x)%N →
  ∃ c r, pretty_N_go x s = String c r ∧ nonzeroDigit c = true.
Proof.
  revert s. induction (N.lt_wf_0 x) as [x _ IH]; intros s Hx.
  rewrite pretty_N_go_step by done.
  assert (x < 10 ∨ 10 ≤ x)%N as [Hlt|Hge] by lia.
  - rewrite N.div_small, pretty_N_go_0 by done. eexists _, _. split; [done|].
    rewrite N.mod_small by done.
    rewrite <- (N2Nat.id x).
    assert (Hn : (0 < N.to_nat x < 10)%nat) by lia.
    destruct (N.to_nat x) as [|[|[|[|[|[|[|[|[|[|n]]]]]]]]]];
      first [lia | done].
  - apply IH; [by apply N.div_lt|]. apply N.div_str_pos. lia.
Qed.

Lemma pretty_positive_spec (q : positive) :
  noSpace (pretty q) = true
  ∧ ∃ c r, pretty q = String c r ∧ nonzeroDigit c = true.
Proof.
  unfold pretty, pretty_positive, pretty, pretty_N.
  destruct (decide (N.pos q = 0%N)) as [?|_]; [done|]. split.
  - by apply pretty_N_go_noSpace.
  - by apply pretty_N_go_head.
Qed.

Lemma px_token n : isToken (px n) = true.
Proof.
  unfold isToken, px. apply andb_true_iff. split.
  - apply negb_true_iff. by destruct (pretty n).
  - rewrite noSpace_app, andb_true_r.
    destruct n as [|q|q]; [done|..].
    + apply pretty_positive_spec.
    + change (pretty (Z.neg q)) with ("-" +:+ pretty q).
      rewrite noSpace_app. by rewrite (proj1 (pretty_positive_spec q)).
Qed.

Lemma nonzeroDigit_not_dash c :
  nonzeroDigit c = true → Ascii.eqb c "-"%char = false.
Proof.
  destruct c as [[] [] [] [] [] [] [] []]; by vm_compute.
Qed.

Lemma px_negative n : negativeToken (px n) = bool_decide (n < 0)%Z.
Proof.
  unfold px. destruct n as [|q|q].
  - done.
  - destruct (pretty_positive_spec q) as [_ (c & r & Hq & Hc)].
    change (pretty (Z.pos q)) with (pretty q). rewrite Hq, app_cons.
    cbn [negativeToken]. by rewrite (nonzeroDigit_not_dash c Hc).
  - destruct (pretty_positive_spec q) as [_ (c & r & Hq & Hc)].
    change (pretty (Z.neg q)) with ("-" +:+ pretty q).
    rewrite Hq. change (("-" +:+ String c r) +:+ "px")
      with (String "-" (String c (r +:+ "px"))).
    cbn [negativeToken nonzeroMantissa Ascii.eqb Bool.eqb andb].
    by rewrite Hc.
Qed.

Lemma declared_ext k m m' : m !! k = m' !! k → declared k m = declared k m'.
Proof. unfold declared. by intros ->. Qed.

Lemma readProp_ext k m m' :
  (∀ j, j = k ∨ (k = "overflow" ∧ oneOf j overflowAxes = true)
        ∨ (k = "padding" ∧ oneOf j paddingSides = true) →
        m !! j = m' !! j) →
  readProp k m = readProp k m'.
Proof.
  intros H. unfold readProp.
  destruct (String.eqb k "overflow") eqn:E1.
  { apply String.eqb_eq in E1 as ->.
    by rewrite (declared_ext "overflowX" m m'),
      (declared_ext "overflowY" m m') by (apply H; auto). }
  destruct (String.eqb k "padding") eqn:E2.
  { apply String.eqb_eq in E2 as ->.
    by rewrite (declared_ext "paddingTop" m m'),
      (declared_ext "paddingRight" m m'),
      (declared_ext "paddingBottom" m m'),
      (declared_ext "paddingLeft" m m') by (apply H; auto). }
  by rewrite (declared_ext k m m') by (apply H; auto).
Qed.

Lemma writeProp_overflow_other v m j :
  oneOf j overflowAxes = false →
  writeProp "overflow" v m !! j = m !! j.
Proof.
  intros Hj.
  assert (j ≠ "overflowX" ∧ j ≠ "overflowY") as [Hx Hy].
  { split; intros ->; done. }
  unfold writeProp. destruct (String.eqb v "").
  { cbn. by rewrite !lookup_delete_ne. }
  cbn [oneOf existsb app String.eqb Ascii.eqb Bool.eqb orb andb].
  unfold longhandsOf.
  cbn [String.eqb Ascii.eqb Bool.eqb andb].
  destruct (words v) as [|a [|b [|c ts]]]; try done.
  - cbn. by rewrite !lookup_insert_ne.
  - destruct (cssWide a || cssWide b); [done|].
    cbn. by rewrite !lookup_insert_ne.
Qed.

Lemma writeProp_paddingRight_other v m j :
  j ≠ "paddingRight" →
  writeProp "paddingRight" v m !! j = m !! j.
Proof.
  intros Hj. unfold writeProp. destruct (String.eqb v "").
  { cbn. by rewrite lookup_delete_ne. }
  cbn [oneOf existsb app String.eqb Ascii.eqb Bool.eqb orb andb].
  unfold longhandsOf.
  cbn [String.eqb Ascii.eqb Bool.eqb andb].
  destruct (words v) as [|a [|b ts]]; try done.
  cbn [forallb fst snd andb]. destruct (acceptedBy "paddingRight" a); [|done].
  cbn. by rewrite lookup_insert_ne.
Qed.

Lemma acceptedBy_axis k v :
  oneOf k overflowAxes = true → acceptedBy k v = true.
Proof.
  unfold oneOf. cbn [existsb overflowAxes]. rewrite orb_false_r.
  intros [->%String.eqb_eq| ->%String.eqb_eq]%orb_true_iff; done.
Qed.

Lemma declared_axis_insert k v m :
  oneOf k overflowAxes = true → isToken v = true →
  declared k (<[k := v]> m) = Some v.
Proof.
  intros Hk Hv. unfold declared. rewrite lookup_insert_eq.
  assert (Hm : oneOf k (paddingSides ++ overflowAxes)%list = true).
  { unfold oneOf in *. rewrite existsb_app, Hk. apply orb_true_r. }
  by rewrite Hm, Hv, (acceptedBy_axis k v Hk).
Qed.

Lemma declared_axis_Some k m v :
  oneOf k overflowAxes = true → declared k m = Some v → isToken v = true.
Proof.
  intros Hk. unfold declared.
  assert (Hm : oneOf k (paddingSides ++ overflowAxes)%list = true).
  { unfold oneOf in *. rewrite existsb_app, Hk. apply orb_true_r. }
  rewrite Hm. destruct (m !! k) as [u|]; [|done].
  destruct (isToken u) eqn:E; [|done]. cbn.
  destruct (acceptedBy k u); [|done]. by intros [= <-].
Qed.

Lemma overflow_written x y m :
  isToken x = true → isToken y = true →
  readProp "overflow" (<["overflowY" := y]> (<["overflowX" := x]> m))
  = serializeAxes (Some x) (Some y).
Proof.
  intros Hx Hy. unfold readProp. cbn [String.eqb Ascii.eqb Bool.eqb andb].
  rewrite (declared_axis_insert "overflowY") by done.
  rewrite (declared_ext "overflowX" _ (<["overflowX" := x]> m))
    by (by rewrite lookup_insert_ne).
  by rewrite (declared_axis_insert "overflowX") by done.
Qed.

Lemma overflow_removed m :
  readProp "overflow" (delete "overflowY" (delete "overflowX" m)) = "".
Proof.
  unfold readProp. cbn [String.eqb Ascii.eqb Bool.eqb andb].
  assert (H : declared "overflowY" (delete "overflowY" (delete "overflowX" m))
              = None).
  { unfold declared. by rewrite lookup_delete_eq. }
  rewrite H. by destruct (declared "overflowX" _).
Qed.

(** Writing a keyword to the shorthand makes the shorthand read it. *)
Lemma styleGet_overflow_hidden m :
  styleGet "overflow" (styleSet "overflow" "hidden" m) = "hidden".
Proof.
  change (styleSet "overflow" "hidden" m)
    with (<["overflowY" := "hidden"]> (<["overflowX" := "hidden"]> m)).
  change (styleGet "overflow") with (readProp "overflow").
  by rewrite overflow_written.
Qed.

(** A value read from the shorthand is taken when written back. *)
Lemma styleGet_overflow_restore m0 m :
  styleGet "overflow" (styleSet "overflow" (styleGet "overflow" m0) m)
  = styleGet "overflow" m0.
Proof.
  change (styleGet "overflow") with (readProp "overflow").
  change (styleSet "overflow") with (writeProp "overflow").
  unfold readProp at 2 3. cbn [String.eqb Ascii.eqb Bool.eqb andb].
  destruct (declared "overflowX" m0) as [x|] eqn:Ex;
    [|by cbn; apply overflow_removed].
  destruct (declared "overflowY" m0) as [y|] eqn:Ey;
    [|by cbn; apply overflow_removed].
  apply (declared_axis_Some "overflowX") in Ex; [|done].
  apply (declared_axis_Some "overflowY") in Ey; [|done].
  destruct (isToken_spec x Ex) as [Hx _].
  cbn [serializeAxes]. destruct (String.eqb x y) eqn:Exy.
  - apply String.eqb_eq in Exy as <-.
    unfold writeProp. apply String.eqb_neq in Hx. rewrite Hx.
    cbn [oneOf existsb app String.eqb Ascii.eqb Bool.eqb orb andb].
    rewrite (words_token x Ex). cbn [longhandsOf String.eqb Ascii.eqb
      Bool.eqb andb forallb fst snd foldl].
    cbn [acceptedBy oneOf existsb paddingSides String.eqb Ascii.eqb
         Bool.eqb andb orb].
    rewrite overflow_written by done. cbn [serializeAxes].
    by rewrite String.eqb_refl.
  - destruct (cssWide x || cssWide y) eqn:Ew; [by cbn; apply overflow_removed|].
    unfold writeProp. rewrite append_space_nonempty.
    cbn [oneOf existsb app String.eqb Ascii.eqb Bool.eqb orb andb].
    rewrite (words_two x y Ex Ey). cbn [longhandsOf String.eqb Ascii.eqb
      Bool.eqb andb]. rewrite Ew.
    cbn [forallb fst snd foldl acceptedBy oneOf existsb paddingSides
         String.eqb Ascii.eqb Bool.eqb andb orb].
    rewrite overflow_written by done. cbn [serializeAxes].
    by rewrite Exy, Ew.
Qed.

Lemma declared_paddingRight_insert v m :
  isToken v = true → negativeToken v = false →
  declared "paddingRight" (<["paddingRight" := v]> m) = Some v.
Proof.
  intros Hv Hn. unfold declared. rewrite lookup_insert_eq.
  cbn [oneOf existsb app paddingSides overflowAxes String.eqb Ascii.eqb
       Bool.eqb andb orb acceptedBy].
  by rewrite Hv, Hn.
Qed.

Lemma declared_paddingRight_Some m v :
  declared "paddingRight" m = Some v →
  isToken v = true ∧ negativeToken v = false.
Proof.
  unfold declared. destruct (m !! "paddingRight") as [u|]; [|done].
  cbn [oneOf existsb app paddingSides overflowAxes String.eqb Ascii.eqb
       Bool.eqb andb orb acceptedBy].
  destruct (isToken u) eqn:E1; [|done].
  destruct (negativeToken u) eqn:E2; [done|]. by intros [= <-].
Qed.

Lemma writeProp_paddingRight_token v m :
  isToken v = true →
  writeProp "paddingRight" v m
  = if negativeToken v then m else <["paddingRight" := v]> m.
Proof.
  intros Hv. unfold writeProp.
  destruct (isToken_spec v Hv) as [Hne%String.eqb_neq _]. rewrite Hne.
  cbn [oneOf existsb app paddingSides overflowAxes String.eqb Ascii.eqb
       Bool.eqb andb orb].
  rewrite (words_token v Hv).
  cbn [longhandsOf String.eqb Ascii.eqb Bool.eqb andb forallb fst snd
       acceptedBy oneOf existsb paddingSides orb].
  by destruct (negativeToken v).
Qed.

(** A width that is not negative is taken as right padding. *)
Lemma styleGet_paddingRight_px n m :
  (0 ≤ n)%Z →
  styleGet "paddingRight" (styleSet "paddingRight" (px n) m) = px n.
Proof.
  intros Hn.
  change (styleGet "paddingRight") with (readProp "paddingRight").
  change (styleSet "paddingRight") with (writeProp "paddingRight").
  rewrite writeProp_paddingRight_token by apply px_token.
  rewrite px_negative, bool_decide_false by lia.
  unfold readProp. cbn [String.eqb Ascii.eqb Bool.eqb andb].
  rewrite declared_paddingRight_insert; [done|apply px_token|].
  rewrite px_negative. by apply bool_decide_false; lia.
Qed.

(** A negative width is dropped. *)
Lemma styleSet_paddingRight_negative n m :
  (n < 0)%Z → styleSet "paddingRight" (px n) m = m.
Proof.
  intros Hn. change (styleSet "paddingRight") with (writeProp "paddingRight").
  rewrite writeProp_paddingRight_token by apply px_token.
  by rewrite px_negative, bool_decide_true.
Qed.

(** A value read from [paddingRight] is taken when written back. *)
Lemma styleGet_paddingRight_restore m0 m :
  styleGet "paddingRight"
    (styleSet "paddingRight" (styleGet "paddingRight" m0) m)
  = styleGet "paddingRight" m0.
Proof.
  change (styleGet "paddingRight") with (readProp "paddingRight").
  change (styleSet "paddingRight") with (writeProp "paddingRight").
  unfold readProp. cbn [String.eqb Ascii.eqb Bool.eqb andb].
  destruct (declared "paddingRight" m0) as [v|] eqn:E;
    cbn [from_option Datatypes.id].
  - destruct (declared_paddingRight_Some m0 v E) as [Hv Hn].
    rewrite writeProp_paddingRight_token by done. rewrite Hn.
    by rewrite declared_paddingRight_insert.
  - unfold writeProp. cbn. unfold declared. by rewrite lookup_delete_eq.
Qed.

(** Writes to [overflow] and to [paddingRight] are not seen through any
    property that is not tied to them. *)
Lemma styleGet_frame_overflow k v m :
  oneOf (camelCase k) ["overflow"; "overflowX"; "overflowY"] = false →
  styleGet k (styleSet "overflow" v m) = styleGet k m.
Proof.
  intros Hk. unfold styleGet.
  change (styleSet "overflow") with (writeProp "overflow").
  set (k' := camelCase k) in *. unfold oneOf in Hk. cbn [existsb] in Hk.
  rewrite orb_false_r in Hk.
  apply orb_false_iff in Hk as [H0 [Hx Hy]%orb_false_iff].
  apply readProp_ext. intros j [->|[[-> _]|[-> Hj]]].
  - apply writeProp_overflow_other. unfold oneOf. cbn [existsb overflowAxes].
    by rewrite Hx, Hy.
  - done.
  - apply writeProp_overflow_other. unfold oneOf in *.
    cbn [existsb paddingSides overflowAxes] in *.
    rewrite orb_false_r in Hj.
    by repeat (apply orb_true_iff in Hj as [->%String.eqb_eq|Hj]; [done|]);
      apply String.eqb_eq in Hj as ->.
Qed.

Lemma styleGet_frame_paddingRight k v m :
  oneOf (camelCase k) ["padding"; "paddingRight"] = false →
  styleGet k (styleSet "paddingRight" v m) = styleGet k m.
Proof.
  intros Hk. unfold styleGet.
  change (styleSet "paddingRight") with (writeProp "paddingRight").
  set (k' := camelCase k) in *. unfold oneOf in Hk. cbn [existsb] in Hk.
  rewrite orb_false_r in Hk. apply orb_false_iff in Hk as [H0 Hr].
  apply readProp_ext. intros j [->|[[-> Hj]|[-> _]]].
  - apply writeProp_paddingRight_other. by apply String.eqb_neq.
  - apply writeProp_paddingRight_other. intros ->. done.
  - done.
Qed.

(** Only the lock's effect writes the body style. *)
Lemma handleLinkClick_frame p w h y :
  bodyStyle (handleLinkClick p w h y) = bodyStyle y
  ∧ lockCleanup (handleLinkClick p w h y) = lockCleanup y.
Proof.
  unfold handleLinkClick.
  destruct (Cfg.closeOnRouteChange p), (onNavigate p),
    (Cfg.enableScrollSpy p); try done;
    by destruct (getElementById _ _).
Qed.

Lemma dispatch_frame p w ev y :
  bodyStyle (dispatch p w ev y) = bodyStyle y
  ∧ lockCleanup (dispatch p w ev y) = lockCleanup y.
Proof.
  destruct ev; cbn [dispatch]; try done.
  - apply handleLinkClick_frame.
  - unfold keyDown, handleEscape.
    by destruct (String.eqb (key e) "Escape" && _).
  - by case_bool_decide.
  - by destruct (timers y).
Qed.

Lemma commitTrap_frame p prev y :
  bodyStyle (commitTrap p prev y) = bodyStyle y
  ∧ lockCleanup (commitTrap p prev y) = lockCleanup y.
Proof.
  unfold commitTrap. destruct (negb _); [done|]. by destruct (Bool.eqb _ _).
Qed.

Lemma lockInv_mount p w body0 focus : lockInv p w body0 (mount p w body0 focus).
Proof. split; [done|]. by intros k _. Qed.

Lemma tiedToLock_false k :
  tiedToLock k = false →
  oneOf (camelCase k) ["overflow"; "overflowX"; "overflowY"] = false
  ∧ oneOf (camelCase k) ["padding"; "paddingRight"] = false.
Proof.
  unfold tiedToLock, oneOf. cbn [existsb]. rewrite !orb_false_r.
  intros H. repeat (apply orb_false_iff in H as [? H]).
  split; repeat (apply orb_false_iff; split); done.
Qed.

(** What the two writes of the effect give, read at a property the lock
    speaks about. *)
Lemma lock_reads w body k :
  k = "overflow" ∨ k = "paddingRight" ∨ tiedToLock k = false →
  styleGet k
    (styleSet "paddingRight" (px (innerWidth w - clientWidth w))
       (styleSet "overflow" "hidden" body))
  = if decide (k = "overflow") then "hidden"
    else if decide (k = "paddingRight")
         then if (0 <=? innerWidth w - clientWidth w)%Z
              then px (innerWidth w - clientWidth w)
              else styleGet "paddingRight" body
         else styleGet k body.
Proof.
  intros [->|[->|Hk]].
  - rewrite styleGet_frame_paddingRight by done.
    by rewrite styleGet_overflow_hidden.
  - rewrite decide_False, decide_True by done.
    destruct (0 <=? innerWidth w - clientWidth w)%Z eqn:E.
    + apply styleGet_paddingRight_px. by apply Z.leb_le.
    + rewrite styleSet_paddingRight_negative by (by apply Z.leb_gt).
      by rewrite styleGet_frame_overflow.
  - destruct (tiedToLock_false k Hk) as [Ho Hp].
    rewrite decide_False by (by intros ->).
    rewrite decide_False by (by intros ->).
    by rewrite styleGet_frame_paddingRight, styleGet_frame_overflow.
Qed.

(** The cleanup closure restores its two properties whatever the body
    style has become in between, and is not seen through a property that
    is not tied to them. *)
Lemma cleanup_restores lock w body c body' k :
  (useLockBodyScroll_effect lock w body).2 = Some c →
  k = "overflow" ∨ k = "paddingRight" ∨ tiedToLock k = false →
  styleGet k (useLockBodyScroll_cleanup c body')
  = if decide (k = "overflow") then styleGet "overflow" body
    else if decide (k = "paddingRight") then styleGet "paddingRight" body
    else styleGet k body'.
Proof.
  unfold useLockBodyScroll_effect. destruct lock; cbn [negb snd]; [|done].
  intros [= <-]. unfold useLockBodyScroll_cleanup.
  cbn [originalOverflow originalPaddingRight].
  intros [->|[->|Hk]].
  - rewrite styleGet_frame_paddingRight by done.
    by rewrite styleGet_overflow_restore.
  - rewrite decide_False, decide_True by done.
    by rewrite styleGet_paddingRight_restore.
  - destruct (tiedToLock_false k Hk) as [Ho Hp].
    rewrite decide_False by (by intros ->).
    rewrite decide_False by (by intros ->).
    by rewrite styleGet_frame_paddingRight, styleGet_frame_overflow.
Qed.

Lemma lockInv_commitLock p w body0 prev y :
  lockCleanup y =
    (if lockOf p prev
     then Some {| originalOverflow := styleGet "overflow" body0;
                  originalPaddingRight := styleGet "paddingRight" body0 |}
     else None) →
  (∀ k, k = "overflow" ∨ k = "paddingRight" ∨ tiedToLock k = false →
        styleGet k (bodyStyle y)
        = expectedStyle w body0 (lockOf p prev) k) →
  lockInv p w body0 (commitLock p w prev y).
Proof.
  intros Hc Hb. unfold lockInv, commitLock.
  destruct (lockOf p prev) eqn:Ep, (lockOf p (cells y)) eqn:En;
    cbn [Bool.eqb cells bodyStyle lockCleanup]; rewrite ?En.
  - done.
  - rewrite Hc. cbn [runLockCleanup useLockBodyScroll_effect negb fst snd].
    split; [done|]. intros k Hk.
    rewrite (cleanup_restores true w body0 _ (bodyStyle y) k eq_refl Hk).
    rewrite (Hb k Hk). unfold expectedStyle.
    repeat case_decide; subst; done.
  - rewrite Hc. cbn [runLockCleanup useLockBodyScroll_effect negb fst snd].
    split.
    + rewrite (Hb "overflow"), (Hb "paddingRight") by auto. done.
    + intros k Hk. rewrite (lock_reads w (bodyStyle y) k Hk).
      unfold expectedStyle, lockedPaddingRight.
      rewrite (Hb "paddingRight"), (Hb k) by auto. done.
  - done.
Qed.

Lemma lockInv_step p w body0 y ev :
  lockInv p w body0 y → lockInv p w body0 (step p w y ev).
Proof.
  intros [Hc Hb]. unfold step, commit.
  destruct (dispatch_frame p w ev y) as [Db Dc].
  pose proof (lockInv_commitLock p w body0 (cells y) (dispatch p w ev y)) as H.
  rewrite Db, Dc in H. specialize (H Hc Hb). destruct H as [Hc' Hb'].
  destruct (commitTrap_frame p (cells y)
              (commitLock p w (cells y) (dispatch p w ev y))) as [Tb Tc].
  split.
  - by rewrite Tc, commitTrap_cells.
  - intros k Hk. rewrite Tb, commitTrap_cells. by apply Hb'.
Qed.

Lemma lockInv_run p w body0 evs y :
  lockInv p w body0 y → lockInv p w body0 (run p w y evs).
Proof.
  revert y. induction evs as [|ev evs IH]; intros y Hy; [done|].
  cbn. apply IH. by apply lockInv_step.
Qed.




(** ** handleLinkClick *)

Lemma commitLock_calls p w prev y : calls (commitLock p w prev y) = calls y.
Proof. unfold commitLock. by destruct (Bool.eqb _ _). Qed.

Lemma commitTrap_calls p prev y : calls (commitTrap p prev y) = calls y.
Proof.
  unfold commitTrap. destruct (negb _); [done|]. by destruct (Bool.eqb _ _).
Qed.

Lemma step_calls p w y ev : calls (step p w y ev) = calls (dispatch p w ev y).
Proof. unfold step, commit. by rewrite commitTrap_calls, commitLock_calls. Qed.

Lemma getElementById_Some w i el :
  getElementById w i = Some el ↔ el = i ∧ i ∈ sectionElements w.
Proof.
  unfold getElementById. case_bool_decide; split.
  - by intros [= <-].
  - by intros [-> _].
  - done.
  - by intros [_ ?].
Qed.

Lemma handleLinkClick_calls p w h y :
  calls (handleLinkClick p w h y) = (calls y ++ clickCalls p w h)%list.
Proof.
  unfold handleLinkClick, clickCalls.
  destruct (Cfg.closeOnRouteChange p), (onNavigate p),
    (Cfg.enableScrollSpy p); cbn; rewrite <- ?app_assoc, ?app_nil_r; try done;
    destruct (getElementById _ _); cbn; by rewrite <- ?app_assoc, ?app_nil_r.
Qed.

Lemma clickCalls_onNavigate p w h h' :
  CallOnNavigate h' ∈ clickCalls p w h ↔ onNavigate p = true ∧ h' = h.
Proof.
  unfold clickCalls. rewrite elem_of_app.
  destruct (Cfg.closeOnRouteChange p), (onNavigate p),
    (Cfg.enableScrollSpy p);
    try destruct (getElementById w (replaceHash h));
    rewrite ?elem_of_cons, ?elem_of_nil; intuition congruence.
Qed.

Lemma clickCalls_scroll p w h el :
  CallScrollIntoViewSmooth el ∈ clickCalls p w h
  ↔ onNavigate p = false ∧ Cfg.enableScrollSpy p = true
    ∧ getElementById w (replaceHash h) = Some el.
Proof.
  unfold clickCalls. rewrite elem_of_app.
  destruct (Cfg.closeOnRouteChange p), (onNavigate p),
    (Cfg.enableScrollSpy p);
    try destruct (getElementById w (replaceHash h));
    rewrite ?elem_of_cons, ?elem_of_nil; intuition congruence.
Qed.

(** C3.  A click on a link adds these calls to the log: the caller's
    navigation callback exactly when one was supplied, and then with the
    link's href and with no smooth scroll; a smooth scroll into view
    exactly when no callback was supplied, scroll-spy is enabled and the
    page has the element whose id is the href without its [#], and then
    of that element; with no callback and scroll-spy disabled,
    neither. *)
Theorem C3_callback_takes_precedence (p : NavbarProps) (w : Window)
    (y : Sys) (l : NavLink) :
  let y' := step p w y (EvClickLink l) in
  let added := callsSince y y' in
  calls y' = (calls y ++ added)%list
  ∧ (CallOnNavigate (href l) ∈ added ↔ onNavigate p = true)
  ∧ (∀ h, CallOnNavigate h ∈ added → h = href l)
  ∧ (∀ el, CallScrollIntoViewSmooth el ∈ added
           ↔ onNavigate p = false ∧ Cfg.enableScrollSpy p = true
             ∧ el = replaceHash (href l) ∧ el ∈ sectionElements w).
Proof.
  intros y' added.
  assert (Hy : calls y' = (calls y ++ clickCalls p w (href l))%list).
  { unfold y'. rewrite step_calls. apply handleLinkClick_calls. }
  assert (Ha : added = clickCalls p w (href l)).
  { unfold added, callsSince. rewrite Hy. apply drop_app_length. }
  rewrite Ha. split; [done|].
  split; [|split].
  - rewrite clickCalls_onNavigate. tauto.
  - intros h. rewrite clickCalls_onNavigate. tauto.
  - intros el. rewrite clickCalls_scroll, getElementById_Some.
    split; intros (?&?&->&?); done.
Qed.

Lemma closeMenu_cells y : cells (closeMenu y) = setIsOpen false (cells y).
Proof. done. Qed.

Lemma handleLinkClick_cells p w h y :
  cells (handleLinkClick p w h y)
  = setCurrentRoute h
      (if Cfg.closeOnRouteChange p then setIsOpen false (cells y)
       else cells y).
Proof.
  unfold handleLinkClick.
  destruct (Cfg.closeOnRouteChange p), (onNavigate p),
    (Cfg.enableScrollSpy p); try done;
    by destruct (getElementById _ _).
Qed.

Lemma isActive_true p s l :
  isActive p s l = true ↔ activeLink p s = href l ∨ activeLink p s = id l.
Proof.
  unfold isActive. rewrite orb_true_iff, !String.eqb_eq. done.
Qed.

(** C4, as the component has it.  A click on a link while "close on
    navigate" is enabled closes the panel, with scroll-spy enabled or
    not; with scroll-spy disabled it also makes the link's href the
    active link, so that the link is rendered active. *)
Theorem C4_click_closes_and_marks_active (p : NavbarProps) (w : Window)
    (y : Sys) (l : NavLink) :
  Cfg.closeOnRouteChange p = true →
  isOpen (cells (step p w y (EvClickLink l))) = false
  ∧ (Cfg.enableScrollSpy p = false →
     activeLink p (cells (step p w y (EvClickLink l))) = href l
     ∧ isActive p (cells (step p w y (EvClickLink l))) l = true).
Proof.
  intros Hclose.
  rewrite step_cells. cbn [dispatch]. rewrite handleLinkClick_cells, Hclose.
  split; [done|]. intros Hspy.
  assert (Ha : activeLink p
                 (setCurrentRoute (href l) (setIsOpen false (cells y)))
               = href l).
  { unfold activeLink. by rewrite Hspy. }
  split; [done|].
  apply isActive_true. by left.
Qed.

Lemma C4_click_closes_and_marks_active_witness :
  Cfg.closeOnRouteChange (Sample.props false) = true
  ∧ Cfg.enableScrollSpy (Sample.props false) = false
  ∧ isOpen (cells (Sample.opened false "")) = true
  ∧ isOpen (cells (step (Sample.props false) (Sample.page "")
                     (Sample.opened false "") (EvClickLink Sample.about)))
    = false
  ∧ activeLink (Sample.props false)
      (cells (step (Sample.props false) (Sample.page "")
                (Sample.opened false "") (EvClickLink Sample.about)))
    = "#about"
  ∧ isActive (Sample.props false)
      (cells (step (Sample.props false) (Sample.page "")
                (Sample.opened false "") (EvClickLink Sample.about)))
      Sample.about
    = true
  ∧ Cfg.closeOnRouteChange (Sample.props true) = true
  ∧ isOpen (cells (Sample.opened true "")) = true
  ∧ isOpen (cells (step (Sample.props true) (Sample.page "")
                     (Sample.opened true "") (EvClickLink Sample.about)))
    = false.
Proof.
  split; [reflexivity|]. split; [reflexivity|]. split; [reflexivity|].
  destruct (C4_click_closes_and_marks_active (Sample.props false)
              (Sample.page "") (Sample.opened false "") Sample.about)
    as [Hc Ha]; [reflexivity|].
  split; [exact Hc|]. destruct Ha as [Ha1 Ha2]; [reflexivity|].
  split; [exact Ha1|]. split; [exact Ha2|].
  split; [reflexivity|]. split; [reflexivity|].
  apply (C4_click_closes_and_marks_active (Sample.props true)
           (Sample.page "") (Sample.opened true "") Sample.about).
  reflexivity.
Defined.

(** With scroll-spy enabled a click leaves the active link to the
    observers. *)
Lemma click_keeps_spy_active_link p w y l :
  Cfg.enableScrollSpy p = true →
  activeLink p (cells (step p w y (EvClickLink l))) = activeLink p (cells y).
Proof.
  intros Hspy. rewrite step_cells. cbn [dispatch].
  rewrite handleLinkClick_cells. unfold activeLink. rewrite Hspy.
  by destruct (Cfg.closeOnRouteChange p).
Qed.

(** C4 as stated fails with scroll-spy enabled: "close on navigate" is on
    and the panel is open; the click on "about" closes the panel, but the
    active link stays empty and "about" is not rendered active. *)
Lemma C4_counterexample :
  Cfg.closeOnRouteChange (Sample.props true) = true
  ∧ Sample.about ∈ links (Sample.props true)
  ∧ isOpen (cells (Sample.opened true "")) = true
  ∧ activeLink (Sample.props true)
      (cells (step (Sample.props true) (Sample.page "")
                (Sample.opened true "") (EvClickLink Sample.about)))
    = ""
  ∧ ¬ (isOpen (cells (step (Sample.props true) (Sample.page "")
                        (Sample.opened true "") (EvClickLink Sample.about)))
       = false
       ∧ isActive (Sample.props true)
           (cells (step (Sample.props true) (Sample.page "")
                     (Sample.opened true "") (EvClickLink Sample.about)))
           Sample.about
         = true).
Proof.
  split; [reflexivity|]. split; [set_solver|]. split; [reflexivity|].
  split; [reflexivity|]. intros [_ H]. vm_compute in H. discriminate H.
Qed.

(** ** useScrollSpy *)

Lemma deliver_cases s r :
  deliver s r = if reportIntersecting r then setActiveId (target r) s else s.
Proof.
  unfold deliver, observerCallback, reportIntersecting.
  by destruct (entries r) as [|e es].
Qed.

Lemma deliver_all_activeId s rs :
  activeId (foldl deliver s rs) = default (activeId s) (lastIntersecting rs).
Proof.
  revert s. induction rs as [|r rs IH]; intros s; [done|].
  cbn [foldl lastIntersecting]. rewrite IH, deliver_cases.
  destruct (lastIntersecting rs); [done|].
  by destruct (reportIntersecting r).
Qed.

Lemma observers_commit p w prev y : observers (commit p w prev y) = observers y.
Proof.
  unfold commit, commitTrap, commitLock.
  destruct (negb _); destruct (Bool.eqb (lockOf _ _) _); try done;
    by destruct (Bool.eqb _ _).
Qed.

Lemma step_report p w y r :
  target r ∈ observers y →
  cells (step p w y (reportEvent r)) = deliver (cells y) r
  ∧ observers (step p w y (reportEvent r)) = observers y.
Proof.
  intros Hin. unfold step. rewrite commit_cells, observers_commit.
  unfold reportEvent. cbn [dispatch]. by rewrite bool_decide_true.
Qed.

Lemma run_reports p w rs y :
  Forall (λ r, target r ∈ observers y) rs →
  cells (run p w y (reportEvent <$> rs)) = foldl deliver (cells y) rs.
Proof.
  revert y. induction rs as [|r rs IH]; intros y Hall; [done|].
  inversion Hall as [|r' rs' Hr Hrs]; subst.
  destruct (step_report p w y r Hr) as [Hc Ho].
  cbn. unfold run in IH. rewrite IH.
  - by rewrite Hc.
  - by rewrite Ho.
Qed.

(** C5.  With scroll-spy enabled, after the observers of the mounted
    component have delivered any sequence of reports, the active link is
    the target of the last report whose entry was intersecting, and is
    what it was before when there is no such report; a single report
    whose entry is not intersecting, or that carries no entry, leaves all
    the cells as they are. *)
Theorem C5_last_intersecting_wins (p : NavbarProps) (w : Window) (y : Sys)
    (rs : list Report) :
  Cfg.enableScrollSpy p = true →
  Forall (λ r, target r ∈ observers y) rs →
  activeLink p (cells (run p w y (reportEvent <$> rs)))
  = default (activeLink p (cells y)) (lastIntersecting rs)
  ∧ ∀ r, target r ∈ observers y → reportIntersecting r = false →
         cells (step p w y (reportEvent r)) = cells y.
Proof.
  intros Hspy Hall. split.
  - rewrite run_reports by done. unfold activeLink. rewrite Hspy.
    apply deliver_all_activeId.
  - intros r Hr Hn. destruct (step_report p w y r Hr) as [-> _].
    by rewrite deliver_cases, Hn.
Qed.

Lemma C5_last_intersecting_wins_witness :
  Cfg.enableScrollSpy (Sample.props true) = true
  ∧ observers (Sample.mounted true "") = ["hero"; "about"]
  ∧ activeLink (Sample.props true)
      (cells (run (Sample.props true) (Sample.page "")
                (Sample.mounted true "") (reportEvent <$> Sample.reports)))
    = "about".
Proof.
  split; [reflexivity|]. split; [reflexivity|].
  refine (eq_trans
    (proj1 (C5_last_intersecting_wins (Sample.props true) (Sample.page "")
              (Sample.mounted true "") Sample.reports _ _)) _).
  - reflexivity.
  - repeat constructor; set_solver.
  - reflexivity.
Defined.

(** ** The tracked route *)

Lemma truthy_false s : truthy s = false ↔ s = "".
Proof. unfold truthy. by rewrite negb_false_iff, String.eqb_eq. Qed.

Lemma truthy_true s : truthy s = true ↔ s ≠ "".
Proof. unfold truthy. by rewrite negb_true_iff, String.eqb_neq. Qed.

Lemma routeAtMount_hash p w :
  locationHash w ≠ "" → routeAtMount p w = locationHash w.
Proof.
  intros H. unfold routeAtMount. apply truthy_true in H. by rewrite H.
Qed.

Lemma routeAtMount_first p w l0 :
  locationHash w = "" → links p !! 0%nat = Some l0 →
  routeAtMount p w = href l0.
Proof.
  intros H H0. unfold routeAtMount. apply truthy_false in H. rewrite H, H0.
  destruct (truthy (href l0)) eqn:E; [done|]. by apply truthy_false in E.
Qed.

(** C6.  With scroll-spy disabled and a non-empty link list, after mount
    the active link is the location hash when there is one, so that every
    link whose href is the hash is rendered active; without a hash it is
    the href of the first link, which is rendered active.  For the links
    [hero, about]: mounted without a hash, exactly "hero" is rendered
    active; after the location has become [#about] and "about" has been
    clicked, exactly "about" is. *)
Theorem C6_route_defaults_to_hash_or_first (p : NavbarProps) (w : Window)
    (body : gmap string string) (focus : NodeId) :
  Cfg.enableScrollSpy p = false →
  links p ≠ [] →
  (locationHash w ≠ "" →
     activeLink p (cells (mount p w body focus)) = locationHash w
     ∧ ∀ l, href l = locationHash w →
            isActive p (cells (mount p w body focus)) l = true)
  ∧ (locationHash w = "" →
       ∃ l0, links p !! 0%nat = Some l0
             ∧ activeLink p (cells (mount p w body focus)) = href l0
             ∧ isActive p (cells (mount p w body focus)) l0 = true)
  ∧ activeLinks (Sample.props false) (cells (Sample.mounted false ""))
    = [Sample.hero]
  ∧ activeLinks (Sample.props false)
      (cells (step (Sample.props false) (Sample.page "#about")
                (Sample.mounted false "") (EvClickLink Sample.about)))
    = [Sample.about].
Proof.
  intros Hspy Hne.
  assert (Ha : activeLink p (cells (mount p w body focus)) = routeAtMount p w).
  { unfold activeLink. by rewrite Hspy. }
  split; [|split; [|split; reflexivity]].
  - intros Hh. rewrite Ha, routeAtMount_hash by done. split; [done|].
    intros l Hl. apply isActive_true. left.
    by rewrite Ha, routeAtMount_hash.
  - intros Hh. destruct (links p) as [|l0 ls] eqn:El; [done|].
    exists l0. split; [done|].
    assert (Hr : routeAtMount p w = href l0).
    { apply routeAtMount_first; [done|]. by rewrite El. }
    split; [by rewrite Ha|].
    apply isActive_true. left. by rewrite Ha.
Qed.

Lemma C6_route_defaults_to_hash_or_first_witness :
  Cfg.enableScrollSpy (Sample.props false) = false
  ∧ links (Sample.props false) ≠ []
  ∧ activeLink (Sample.props false) (cells (Sample.mounted false "#about"))
    = "#about"
  ∧ isActive (Sample.props false) (cells (Sample.mounted false "#about"))
      Sample.about = true.
Proof.
  split; [reflexivity|]. split; [discriminate|].
  destruct (C6_route_defaults_to_hash_or_first (Sample.props false)
              (Sample.page "#about") Sample.body Elsewhere)
    as [H _]; [reflexivity|discriminate|].
  destruct H as [H1 H2]; [discriminate|].
  split; [exact H1|]. apply H2. reflexivity.
Defined.

(** ** Escape *)

Lemma withFocus_same y : withFocus (activeElement y) y = y.
Proof. by destruct y. Qed.

Lemma keyDown_escape shift dflt y :
  keyDown (escapeKey shift) dflt y = handleEscape (escapeKey shift) y.
Proof.
  unfold keyDown.
  assert (Hr : match trapListener y, activeElement y with
               | Some c, PanelNode _ =>
                   handleTab c (escapeKey shift) (activeElement y)
               | _, _ => (false, activeElement y)
               end = (false, activeElement y)).
  { destruct (trapListener y), (activeElement y); done. }
  rewrite Hr. cbn. by rewrite withFocus_same.
Qed.

Lemma commit_same p w y : commit p w (cells y) y = y.
Proof.
  unfold commit, commitLock. rewrite Bool.eqb_reflx.
  unfold commitTrap. destruct (negb _); [done|]. by rewrite Bool.eqb_reflx.
Qed.

(** C7.  Escape, with or without Shift and whatever the focus-trap
    setting, leaves the panel closed: pressed while the panel is open it
    sets the open flag to false and changes no other cell; pressed while
    the panel is closed it changes nothing at all, neither the cells nor
    the body style, the focus, the listeners, the timers or the log. *)
Theorem C7_escape_closes (p : NavbarProps) (w : Window) (y : Sys)
    (shift : bool) (dflt : NodeId) :
  isOpen (cells (step p w y (EvKeyDown (escapeKey shift) dflt))) = false
  ∧ cells (step p w y (EvKeyDown (escapeKey shift) dflt))
    = setIsOpen false (cells y)
  ∧ (isOpen (cells y) = false →
     step p w y (EvKeyDown (escapeKey shift) dflt) = y).
Proof.
  assert (Hc : cells (step p w y (EvKeyDown (escapeKey shift) dflt))
               = setIsOpen false (cells y)).
  { rewrite step_cells. cbn [dispatch]. rewrite keyDown_escape.
    unfold handleEscape. cbn.
    destruct (isOpen (cells y)) eqn:E; [done|].
    destruct y as [[o r sc a] ? ? ? ? ? ? ?]. cbn in *. by subst. }
  split; [by rewrite Hc|]. split; [done|].
  intros Hclosed. unfold step. cbn [dispatch]. rewrite keyDown_escape.
  unfold handleEscape. rewrite Hclosed, andb_false_r. apply commit_same.
Qed.

Lemma C7_escape_closes_witness :
  Cfg.trapFocus (Sample.props false) = true
  ∧ isOpen (cells (Sample.opened false "")) = true
  ∧ isOpen (cells (step (Sample.props false) (Sample.page "")
                     (Sample.opened false "")
                     (EvKeyDown (escapeKey false) Elsewhere))) = false
  ∧ isOpen (cells (Sample.mounted false "")) = false
  ∧ step (Sample.props false) (Sample.page "") (Sample.mounted false "")
      (EvKeyDown (escapeKey false) Elsewhere)
    = Sample.mounted false "".
Proof.
  split; [reflexivity|]. split; [reflexivity|].
  split; [apply (C7_escape_closes (Sample.props false) (Sample.page "")
                   (Sample.opened false "") false Elsewhere)|].
  split; [reflexivity|].
  apply (C7_escape_closes (Sample.props false) (Sample.page "")
           (Sample.mounted false "") false Elsewhere).
  reflexivity.
Defined.

(** ** Rendering without a browser *)

(** C9.  Rendering where no [window] exists does not throw and shows the
    default state: the initial (not scrolled) preset, the panel closed
    and absent, every cell at its initial value (closed, empty route, not
    scrolled), and a duration of [animateDuration / 1000] obtained
    without the media query, which would have thrown there.  With or
    without a browser, and for any cells, a render returns a view. *)
Theorem C9_server_render_is_default (p : NavbarProps) :
  (∃ v, renderOnServer p = inr v
        ∧ v_bar v = initialPreset p
        ∧ v_ariaExpanded v = false
        ∧ v_panel v = None
        ∧ v_duration v = (Cfg.animateDuration p / (1000 # 1))%Q)
  ∧ initialState
    = {| isOpen := false; currentRoute := ""; isScrolled := false;
         activeId := "" |}
  ∧ matchMediaReduce None = inl (ReferenceError "window")
  ∧ prefersReducedMotion None = inr false
  ∧ ∀ env s, ∃ v, Navbar p env s = inr v.
Proof.
  split; [|split; [done|split; [done|split; [done|]]]].
  - eexists. split; [reflexivity|]. done.
  - intros [w'|] s; unfold Navbar; cbn; eauto.
Qed.

(** ** useFocusTrap *)

Lemma panelShape_head : Forall panelShape panelHead.
Proof. repeat constructor; cbn; eauto. Qed.

Lemma panelShape_link i l : Forall panelShape (panelLink i l).
Proof.
  repeat constructor; cbn; eauto.
Qed.

Lemma panelShape_descendants ls : Forall panelShape (panelDescendants ls).
Proof.
  unfold panelDescendants. apply Forall_app. split; [apply panelShape_head|].
  apply Forall_forall. intros e He.
  apply list_elem_of_join in He as (es & He & Hes).
  apply elem_of_lookup_imap in Hes as (i & l & -> & _).
  by apply (proj1 (Forall_forall _ _) (panelShape_link i l)).
Qed.

(** Without a [tabindex] attribute the selector and the specification's
    list agree. *)
Lemma matchesFocusable_no_tabindex e :
  attributes e !! "tabindex" = None →
  matchesFocusable e = Spec.focusable e.
Proof.
  intros H. unfold matchesFocusable, Spec.focusable, Spec.nonNegativeTabindex.
  rewrite H. unfold hasAttr at 3. rewrite H.
  rewrite bool_decide_false by (by intros [? ?]). done.
Qed.

Lemma filter_focusable_agree (es : list Element) :
  Forall panelShape es →
  querySelectorAll es = filter (λ e, Spec.focusable e = true) es.
Proof.
  unfold querySelectorAll. induction 1 as [|e es [_ He] _ IH]; [done|].
  rewrite !filter_cons, IH, (matchesFocusable_no_tabindex e He). done.
Qed.

Lemma querySelectorAll_panel ls :
  querySelectorAll (panelDescendants ls)
  = closeButton :: querySelectorAll (mjoin (imap panelLink ls)).
Proof.
  unfold querySelectorAll, panelDescendants. rewrite filter_app.
  assert (Hh : filter (λ e, matchesFocusable e = true) panelHead
               = [closeButton]) by (by vm_compute).
  by rewrite Hh.
Qed.

Lemma querySelectorAll_node es e :
  Forall panelShape es → e ∈ querySelectorAll es →
  ∃ n, node e = PanelNode n.
Proof.
  intros Hall He. apply list_elem_of_filter in He as [_ He].
  by destruct (proj1 (Forall_forall _ _) Hall e He) as [? _].
Qed.

Lemma commit_kept p w prev y : cells y = prev → commit p w prev y = y.
Proof. intros <-. apply commit_same. Qed.

Lemma handleEscape_tab shift y :
  handleEscape {| key := "Tab"; shiftKey := shift |} y = y.
Proof. done. Qed.

Lemma commitLock_focus p w prev y :
  activeElement (commitLock p w prev y) = activeElement y
  ∧ trapListener (commitLock p w prev y) = trapListener y.
Proof. unfold commitLock. by destruct (Bool.eqb _ _). Qed.

(** Opening the panel registers [handleTab] with the panel's first and
    last focusable element and focuses the close button. *)
Lemma open_registers_trap p w y :
  Cfg.trapFocus p = true → isOpen (cells y) = false →
  isOpen (cells (step p w y EvClickToggle)) = true
  ∧ trapListener (step p w y EvClickToggle)
    = Some (trapClosure (panelDescendants (links p)))
  ∧ activeElement (step p w y EvClickToggle) = node closeButton.
Proof.
  intros Htrap Hclosed. split; [by rewrite step_cells|].
  unfold step, commit, commitTrap. rewrite Htrap, commitLock_cells.
  cbn [dispatch negb withCells cells setIsOpen isOpen]. rewrite Hclosed.
  assert (Hm : menuRef p (setIsOpen true (cells y))
               = Some (panelDescendants (links p))) by done.
  cbn [Bool.eqb useFocusTrap_effect negb isOpen]. rewrite Hm.
  cbn [trapListener activeElement fst snd].
  split; [done|].
  unfold trapClosure. cbn [firstElement]. by rewrite querySelectorAll_panel.
Qed.

Lemma keyDown_tab_step p w z e dflt a :
  String.eqb (key e) "Tab" = true →
  (∃ c n, trapListener z = Some c ∧ activeElement z = PanelNode n
          ∧ handleTab c e (PanelNode n) = (true, a)) →
  activeElement (step p w z (EvKeyDown e dflt)) = a.
Proof.
  intros Hk (c & n & Hc & Hn & Hh). unfold step. cbn [dispatch].
  unfold keyDown. rewrite Hc, Hn, Hh. cbn [fst snd].
  unfold handleEscape.
  assert (He : String.eqb (key e) "Escape" = false).
  { apply String.eqb_eq in Hk. by rewrite Hk. }
  rewrite He. cbn [andb]. by rewrite commit_kept.
Qed.

(** C8.  With focus trapping configured, opening the closed panel moves
    focus to the first focusable element of the panel, the close button.
    The elements the trap selects in the panel are exactly the panel's
    links, non-disabled buttons, textareas, inputs, selects and elements
    with a non-negative tabindex.  While the trap's listener is
    registered, Tab on the last of them moves focus to the first and
    Shift+Tab on the first moves focus to the last, whatever the browser
    would have done by default. *)
Theorem C8_focus_trap_wraps (p : NavbarProps) (w : Window) (y : Sys) :
  Cfg.trapFocus p = true →
  isOpen (cells y) = false →
  querySelectorAll (panelDescendants (links p))
  = filter (λ e, Spec.focusable e = true) (panelDescendants (links p))
  ∧ ∃ f l,
      querySelectorAll (panelDescendants (links p)) !! 0%nat = Some f
      ∧ last (querySelectorAll (panelDescendants (links p))) = Some l
      ∧ isOpen (cells (step p w y EvClickToggle)) = true
      ∧ activeElement (step p w y EvClickToggle) = node f
      ∧ trapListener (step p w y EvClickToggle)
        = Some (trapClosure (panelDescendants (links p)))
      ∧ ∀ z dflt,
          trapListener z = Some (trapClosure (panelDescendants (links p))) →
          (activeElement z = node l →
           activeElement (step p w z (EvKeyDown tabKey dflt)) = node f)
          ∧ (activeElement z = node f →
             activeElement (step p w z (EvKeyDown shiftTabKey dflt))
             = node l).
Proof.
  intros Htrap Hclosed.
  split; [apply filter_focusable_agree, panelShape_descendants|].
  destruct (open_registers_trap p w y Htrap Hclosed) as (Ho & Hl & Ha).
  pose proof (querySelectorAll_panel (links p)) as Hq.
  destruct (last (querySelectorAll (panelDescendants (links p))))
    as [l|] eqn:El.
  2:{ exfalso. rewrite Hq in El. by rewrite last_cons in El;
      destruct (last _). }
  exists closeButton, l.
  split; [by rewrite Hq|]. do 4 (split; [done|]).
  intros z dflt Hz.
  assert (Hln : ∃ n, node l = PanelNode n).
  { apply (querySelectorAll_node (panelDescendants (links p)));
      [apply panelShape_descendants|]. by apply last_Some_elem_of. }
  destruct Hln as [n Hn].
  assert (Hfirst : firstElement (trapClosure (panelDescendants (links p)))
                   = Some closeButton).
  { unfold trapClosure. cbn [firstElement]. by rewrite Hq. }
  assert (Hlast : lastElement (trapClosure (panelDescendants (links p)))
                  = Some l).
  { done. }
  split; intros Hact.
  - apply keyDown_tab_step; [done|].
    eexists _, n. split; [exact Hz|]. split; [by rewrite Hact|].
    unfold handleTab. cbn [tabKey key shiftKey String.eqb negb].
    rewrite Hlast, Hfirst. cbn. by rewrite Hn, bool_decide_true.
  - apply keyDown_tab_step; [done|].
    eexists _, 1%nat. split; [exact Hz|]. split; [by rewrite Hact|].
    unfold handleTab. cbn [shiftTabKey key shiftKey negb].
    rewrite Hlast, Hfirst. cbn. done.
Qed.

Lemma C8_focus_trap_wraps_witness :
  Cfg.trapFocus (Sample.props false) = true
  ∧ isOpen (cells (Sample.mounted false "")) = false
  ∧ node <$> querySelectorAll (panelDescendants (links (Sample.props false)))
    = [PanelNode 1; PanelNode 6; PanelNode 8]
  ∧ querySelectorAll (panelDescendants (links (Sample.props false)))
    = filter (λ e, Spec.focusable e = true)
        (panelDescendants (links (Sample.props false))).
Proof.
  split; [reflexivity|]. split; [reflexivity|]. split; [reflexivity|].
  apply (C8_focus_trap_wraps (Sample.props false) (Sample.page "")
           (Sample.mounted false "")); reflexivity.
Defined.

(** The selector itself is wider than the specification's list: it takes
    every [tabindex] other than ["-1"], and so a negative one such as
    ["-2"].  The panel of this component carries no [tabindex]. *)
Lemma selector_covers_spec_list e :
  Spec.focusable e = true → matchesFocusable e = true.
Proof.
  unfold Spec.focusable, matchesFocusable, Spec.nonNegativeTabindex, hasAttr.
  rewrite !orb_true_iff. intros [H|H]; [by left|right].
  destruct (attributes e !! "tabindex") as [v|] eqn:Ev; [|done].
  rewrite bool_decide_true by eauto. cbn.
  rewrite bool_decide_false; [done|].
  intros [= ->]. done.
Qed.

Example selector_takes_negative_tabindex :
  matchesFocusable
    {| node := Elsewhere; tagName := "div";
       attributes := {[ "tabindex" := "-2" ]} |} = true
  ∧ Spec.focusable
      {| node := Elsewhere; tagName := "div";
         attributes := {[ "tabindex" := "-2" ]} |} = false.
Proof. by vm_compute. Qed.

(** ** The active link before any observer has reported *)

Lemma dispatch_activeId p w ev y :
  isIntersect ev = false →
  activeId (cells (dispatch p w ev y)) = activeId (cells y).
Proof.
  destruct ev; cbn [dispatch isIntersect]; try done.
  - intros _. rewrite handleLinkClick_cells.
    by destruct (Cfg.closeOnRouteChange p).
  - intros _. unfold keyDown, handleEscape.
    by destruct (String.eqb (key e) "Escape" && _).
  - intros _. by destruct (timers y).
Qed.

Lemma run_activeId p w evs y :
  Forall (λ ev, isIntersect ev = false) evs →
  activeId (cells (run p w y evs)) = activeId (cells y).
Proof.
  revert y. induction evs as [|ev evs IH]; intros y Hall; [done|].
  inversion Hall as [|ev' evs' Hev Hevs]; subst.
  cbn. unfold run in IH. rewrite IH by done.
  rewrite step_cells. by apply dispatch_activeId.
Qed.

(** C10, as the component has it.  With scroll-spy enabled the active
    identifier starts empty and stays empty until an observer reports,
    whatever the location hash and the link list and whatever else
    happens: until then a link is rendered active exactly when its href
    or its id is the empty string, so no link with a non-empty href and a
    non-empty id is.  In every state a link is rendered active exactly
    when the active identifier equals its href or its id. *)
Theorem C10_spy_starts_with_no_active_link (p : NavbarProps) (w : Window)
    (body : gmap string string) (focus : NodeId) (evs : list Event) :
  Cfg.enableScrollSpy p = true →
  Forall (λ ev, isIntersect ev = false) evs →
  activeId initialState = ""
  ∧ activeLink p (cells (run p w (mount p w body focus) evs)) = ""
  ∧ (∀ l, isActive p (cells (run p w (mount p w body focus) evs)) l = true
          ↔ href l = "" ∨ id l = "")
  ∧ (∀ l, href l ≠ "" → id l ≠ "" →
          isActive p (cells (run p w (mount p w body focus) evs)) l = false)
  ∧ ∀ s l, isActive p s l = true
           ↔ activeLink p s = href l ∨ activeLink p s = id l.
Proof.
  intros Hspy Hall.
  assert (Ha : activeLink p (cells (run p w (mount p w body focus) evs)) = "").
  { unfold activeLink. rewrite Hspy. by rewrite run_activeId. }
  split; [done|]. split; [done|].
  assert (Hiff : ∀ l,
    isActive p (cells (run p w (mount p w body focus) evs)) l = true
    ↔ href l = "" ∨ id l = "").
  { intros l. rewrite isActive_true, Ha. split; intros [H|H]; auto. }
  split; [exact Hiff|]. split; [|intros s l; apply isActive_true].
  intros l Hh Hi. apply not_true_is_false. rewrite Hiff. tauto.
Qed.

Lemma C10_spy_starts_with_no_active_link_witness :
  Cfg.enableScrollSpy (Sample.props true) = true
  ∧ activeLink (Sample.props true)
      (cells (run (Sample.props true) (Sample.page "#about")
                (mount (Sample.props true) (Sample.page "#about")
                   Sample.body Elsewhere)
                [EvClickToggle; EvClickLink Sample.about])) = ""
  ∧ isActive (Sample.props true)
      (cells (run (Sample.props true) (Sample.page "#about")
                (mount (Sample.props true) (Sample.page "#about")
                   Sample.body Elsewhere)
                [EvClickToggle; EvClickLink Sample.about])) Sample.about
    = false.
Proof.
  split; [reflexivity|].
  destruct (C10_spy_starts_with_no_active_link (Sample.props true)
              (Sample.page "#about") Sample.body Elsewhere
              [EvClickToggle; EvClickLink Sample.about])
    as (_ & H1 & _ & H2 & _).
  - reflexivity.
  - repeat constructor.
  - split; [exact H1|]. apply H2; discriminate.
Defined.

(** C10 as stated fails for a link with an empty href: with scroll-spy
    enabled and before any observer has reported, that link is rendered
    active. *)
Lemma C10_counterexample :
  Cfg.enableScrollSpy Sample.homeProps = true
  ∧ Sample.home ∈ links Sample.homeProps
  ∧ activeLink Sample.homeProps
      (cells (mount Sample.homeProps (Sample.page "") Sample.body Elsewhere))
    = ""
  ∧ isActive Sample.homeProps
      (cells (mount Sample.homeProps (Sample.page "") Sample.body Elsewhere))
      Sample.home = true
  ∧ ¬ (∀ l, l ∈ links Sample.homeProps →
            isActive Sample.homeProps
              (cells (mount Sample.homeProps (Sample.page "") Sample.body
                        Elsewhere)) l = false).
Proof.
  split; [reflexivity|]. split; [set_solver|]. split; [reflexivity|].
  split; [reflexivity|]. intros H.
  specialize (H Sample.home ltac:(set_solver)). discriminate H.
Qed.

(** * Further properties of the component *)

(** ** Frames of the handlers and of the effects *)

Lemma withCells_same (f : NavbarState → NavbarState) y :
  f (cells y) = cells y → withCells f y = y.
Proof. intros H. unfold withCells. rewrite H. by destruct y. Qed.

Lemma setIsOpen_same s : setIsOpen (isOpen s) s = s.
Proof. by destruct s. Qed.

Lemma lockOf_isOpen p s s' : isOpen s = isOpen s' → lockOf p s = lockOf p s'.
Proof. unfold lockOf. by intros ->. Qed.

(** A render in which [isOpen] did not change runs neither the lock's
    effect nor the trap's. *)
Lemma commit_isOpen_same p w prev y :
  isOpen (cells y) = isOpen prev → commit p w prev y = y.
Proof.
  intros H. unfold commit, commitLock.
  rewrite (lockOf_isOpen p prev (cells y)) by done. rewrite Bool.eqb_reflx.
  unfold commitTrap. destruct (negb _); [done|].
  by rewrite H, Bool.eqb_reflx.
Qed.

Lemma commit_timers p w prev y : timers (commit p w prev y) = timers y.
Proof.
  unfold commit, commitTrap, commitLock.
  destruct (negb _); destruct (Bool.eqb (lockOf _ _) _); try done;
    by destruct (Bool.eqb _ _).
Qed.

Lemma commit_calls p w prev y : calls (commit p w prev y) = calls y.
Proof. unfold commit. by rewrite commitTrap_calls, commitLock_calls. Qed.

Lemma handleTab_other_key c e a :
  String.eqb (key e) "Tab" = false → handleTab c e a = (false, a).
Proof. intros H. unfold handleTab. by rewrite H. Qed.

Lemma keyDown_other_key e dflt y :
  String.eqb (key e) "Tab" = false →
  keyDown e dflt y = handleEscape e y.
Proof.
  intros H. unfold keyDown.
  assert (Hr : match trapListener y, activeElement y with
               | Some c, PanelNode _ => handleTab c e (activeElement y)
               | _, _ => (false, activeElement y)
               end = (false, activeElement y)).
  { destruct (trapListener y), (activeElement y); try done;
      by apply handleTab_other_key. }
  rewrite Hr, H. cbn. by rewrite withFocus_same.
Qed.

Lemma dispatch_isOpen p w ev y :
  isOpen (cells (dispatch p w ev y))
  = match ev with
    | EvClickToggle => true
    | EvClickClose | EvClickBackdrop => false
    | EvClickLink _ =>
        if Cfg.closeOnRouteChange p then false else isOpen (cells y)
    | EvKeyDown e _ =>
        if String.eqb (key e) "Escape" then false else isOpen (cells y)
    | _ => isOpen (cells y)
    end.
Proof.
  destruct ev as [q| | | |l|e dflt|i es|]; cbn [dispatch]; try done.
  - rewrite handleLinkClick_cells. by destruct (Cfg.closeOnRouteChange p).
  - unfold keyDown, handleEscape. cbn [withFocus cells].
    destruct (String.eqb (key e) "Escape"); [|done].
    by destruct (isOpen (cells y)) eqn:E.
  - case_bool_decide; [|done]. cbn. unfold observerCallback.
    destruct (es !! 0%nat) as [en|]; [|done].
    by destruct (isIntersecting en).
  - by destruct (timers y).
Qed.

(** ** Closing and opening *)

(** X1.  A click on the close button or on the backdrop sets the open
    flag to false and changes no other cell, logs exactly one
    [setTimeout] of 100 ms, and when that timer fires the focus is on the
    toggle button. *)
Theorem X1_close_click_closes_and_refocuses (p : NavbarProps) (w : Window)
    (y : Sys) (backdrop : bool) :
  cells (step p w y (closeClick backdrop)) = setIsOpen false (cells y)
  ∧ calls (step p w y (closeClick backdrop))
    = (calls y ++ [CallSetTimeoutFocusButton 100])%list
  ∧ timers (step p w y (closeClick backdrop)) = S (timers y)
  ∧ activeElement (run p w y [closeClick backdrop; EvTimeout])
    = ToggleButton
  ∧ timers (run p w y [closeClick backdrop; EvTimeout]) = timers y.
Proof.
  assert (Hd : dispatch p w (closeClick backdrop) y = closeMenu y).
  { by destruct backdrop. }
  assert (Ht : timers (step p w y (closeClick backdrop)) = S (timers y)).
  { unfold step. by rewrite commit_timers, Hd. }
  split; [by rewrite step_cells, Hd|].
  split; [by rewrite step_calls, Hd|].
  split; [done|].
  cbn [run foldl]. unfold step at 1 3. cbn [dispatch]. rewrite Ht.
  rewrite !commit_kept by done. done.
Qed.

(** X2.  A click on the toggle button while the panel is already open
    changes nothing: no cell, no effect, no saved value of the lock. *)
Theorem X2_opening_is_idempotent (p : NavbarProps) (w : Window) (y : Sys) :
  isOpen (cells y) = true → step p w y EvClickToggle = y.
Proof.
  intros H. unfold step. cbn [dispatch].
  rewrite withCells_same; [apply commit_same|].
  rewrite <- H. apply setIsOpen_same.
Qed.

Lemma X2_opening_is_idempotent_witness :
  isOpen (cells (Sample.opened false "")) = true
  ∧ step (Sample.props false) (Sample.page "") (Sample.opened false "")
      EvClickToggle
    = Sample.opened false "".
Proof.
  split; [reflexivity|].
  apply (X2_opening_is_idempotent (Sample.props false) (Sample.page "")
           (Sample.opened false "")).
  reflexivity.
Defined.

(** X3.  A click on the toggle button always leaves the panel open, and
    nothing else opens it: if the panel is closed before an event and
    open after it, the event was a click on the toggle button. *)
Theorem X3_only_the_toggle_opens (p : NavbarProps) (w : Window) (y : Sys)
    (ev : Event) :
  isOpen (cells y) = false →
  isOpen (cells (step p w y ev)) = true →
  ev = EvClickToggle
  ∧ isOpen (cells (step p w y EvClickToggle)) = true.
Proof.
  intros Hc Ho. split; [|by rewrite step_cells].
  rewrite step_cells, dispatch_isOpen, ?Hc in Ho.
  destruct ev; try done.
  - by destruct (Cfg.closeOnRouteChange p).
  - by destruct (String.eqb (key e) "Escape").
Qed.

Lemma X3_only_the_toggle_opens_witness :
  isOpen (cells (Sample.mounted false "")) = false
  ∧ isOpen (cells (step (Sample.props false) (Sample.page "")
                     (Sample.mounted false "") EvClickToggle)) = true.
Proof.
  split; [reflexivity|].
  apply (X3_only_the_toggle_opens (Sample.props false) (Sample.page "")
           (Sample.mounted false "") EvClickToggle); reflexivity.
Defined.

(** X17.  The timer set on closing is never cancelled: when the panel is
    reopened before it fires, the firing moves focus to the toggle
    button, which is outside the panel, while the panel is open. *)
Theorem X17_focus_timer_survives_reopening (p : NavbarProps) (w : Window)
    (y : Sys) (backdrop : bool) :
  isOpen (cells (run p w y [closeClick backdrop; EvClickToggle; EvTimeout]))
  = true
  ∧ activeElement (run p w y [closeClick backdrop; EvClickToggle; EvTimeout])
    = ToggleButton.
Proof.
  cbn [run foldl].
  set (y1 := step p w y (closeClick backdrop)).
  set (y2 := step p w y1 EvClickToggle).
  assert (H1 : timers y1 = S (timers y)).
  { unfold y1, step. rewrite commit_timers. by destruct backdrop. }
  assert (H2 : timers y2 = S (timers y)).
  { unfold y2, step. by rewrite commit_timers. }
  assert (Ho : isOpen (cells y2) = true) by (unfold y2; by rewrite step_cells).
  unfold step at 1 2. cbn [dispatch]. rewrite H2.
  rewrite !commit_kept by done. done.
Qed.

Lemma handleLinkClick_keep p w h y :
  Cfg.closeOnRouteChange p = false →
  cells (handleLinkClick p w h y) = setCurrentRoute h (cells y)
  ∧ activeElement (handleLinkClick p w h y) = activeElement y
  ∧ timers (handleLinkClick p w h y) = timers y
  ∧ trapListener (handleLinkClick p w h y) = trapListener y.
Proof.
  intros H. unfold handleLinkClick. rewrite H.
  destruct (onNavigate p), (Cfg.enableScrollSpy p); try done;
    by destruct (getElementById _ _).
Qed.

(** X18.  With "close on navigate" switched off, a click on a link only
    records the route: the open flag, the scrolled flag, the body style,
    the focus, the trap's listener and the pending timers are as before,
    and no timer call is logged. *)
Theorem X18_click_without_close_keeps_panel (p : NavbarProps) (w : Window)
    (y : Sys) (l : NavLink) :
  Cfg.closeOnRouteChange p = false →
  cells (step p w y (EvClickLink l)) = setCurrentRoute (href l) (cells y)
  ∧ bodyStyle (step p w y (EvClickLink l)) = bodyStyle y
  ∧ activeElement (step p w y (EvClickLink l)) = activeElement y
  ∧ trapListener (step p w y (EvClickLink l)) = trapListener y
  ∧ timers (step p w y (EvClickLink l)) = timers y
  ∧ CallSetTimeoutFocusButton 100
    ∉ callsSince y (step p w y (EvClickLink l)).
Proof.
  intros H.
  destruct (handleLinkClick_keep p w (href l) y H) as (Hc & Ha & Ht & Hl).
  destruct (handleLinkClick_frame p w (href l) y) as [Hb _].
  assert (Hs : step p w y (EvClickLink l) = handleLinkClick p w (href l) y).
  { unfold step. cbn [dispatch]. apply commit_isOpen_same. by rewrite Hc. }
  rewrite Hs. do 5 (split; [done|]).
  unfold callsSince. rewrite handleLinkClick_calls, drop_app_length.
  unfold clickCalls. rewrite H. cbn [app].
  destruct (onNavigate p), (Cfg.enableScrollSpy p);
    try destruct (getElementById _ _);
    rewrite ?elem_of_cons, ?elem_of_nil; intuition congruence.
Qed.

Lemma X18_click_without_close_keeps_panel_witness :
  Cfg.closeOnRouteChange Cases.bare = false
  ∧ cells (step Cases.bare (Sample.page "")
             (step Cases.bare (Sample.page "")
                (mount Cases.bare (Sample.page "") Sample.body Elsewhere)
                EvClickToggle)
             (EvClickLink Sample.about))
    = {| isOpen := true; currentRoute := "#about"; isScrolled := false;
         activeId := "" |}.
Proof.
  split; [reflexivity|].
  refine (eq_trans
    (proj1 (X18_click_without_close_keeps_panel Cases.bare (Sample.page "")
              (step Cases.bare (Sample.page "")
                 (mount Cases.bare (Sample.page "") Sample.body Elsewhere)
                 EvClickToggle)
              Sample.about _)) _); reflexivity.
Defined.

(** X21.  A key other than Tab and Escape is ignored, whether or not the
    panel is open and whether or not the trap is active: the whole state
    stays as it is. *)
Theorem X21_other_keys_are_ignored (p : NavbarProps) (w : Window) (y : Sys)
    (e : KeyboardEvent) (dflt : NodeId) :
  key e ≠ "Tab" → key e ≠ "Escape" →
  step p w y (EvKeyDown e dflt) = y.
Proof.
  intros Ht He. apply String.eqb_neq in Ht, He.
  unfold step. cbn [dispatch]. rewrite keyDown_other_key by done.
  unfold handleEscape. rewrite He. cbn [andb]. apply commit_same.
Qed.

Lemma X21_other_keys_are_ignored_witness :
  key Cases.keyA ≠ "Tab" ∧ key Cases.keyA ≠ "Escape"
  ∧ step (Sample.props false) (Sample.page "") (Sample.opened false "")
      (EvKeyDown Cases.keyA Elsewhere)
    = Sample.opened false "".
Proof.
  split; [discriminate|]. split; [discriminate|].
  apply (X21_other_keys_are_ignored (Sample.props false) (Sample.page "")
           (Sample.opened false "") Cases.keyA Elsewhere); discriminate.
Defined.

(** ** The lock over whole runs *)

(** X4.  In every state the mounted component can reach, a cleanup of the
    lock is pending exactly while the panel is open with body-scroll
    locking configured, and what it will restore are the values [overflow]
    and [paddingRight] had at mount: opening and closing any number of
    times never saves the lock's own values. *)
Theorem X4_pending_cleanup_holds_original_values (p : NavbarProps)
    (w : Window) (body0 : gmap string string) (focus : NodeId)
    (evs : list Event) :
  lockCleanup (run p w (mount p w body0 focus) evs)
  = if isOpen (cells (run p w (mount p w body0 focus) evs))
       && Cfg.disableBodyScrollOnOpen p
    then Some {| originalOverflow := styleGet "overflow" body0;
                 originalPaddingRight := styleGet "paddingRight" body0 |}
    else None.
Proof.
  by destruct (lockInv_run p w body0 evs _ (lockInv_mount p w body0 focus))
    as [Hc _].
Qed.

Lemma step_body_without_lock p w y ev :
  Cfg.disableBodyScrollOnOpen p = false →
  bodyStyle (step p w y ev) = bodyStyle y
  ∧ lockCleanup (step p w y ev) = lockCleanup y.
Proof.
  intros H. unfold step, commit.
  destruct (commitTrap_frame p (cells y)
              (commitLock p w (cells y) (dispatch p w ev y))) as [-> ->].
  unfold commitLock, lockOf. rewrite H, !andb_false_r. cbn [Bool.eqb].
  apply dispatch_frame.
Qed.

(** X20.  Without body-scroll locking configured the component never
    writes the body style: after any events it is the very store it was
    at mount, and no cleanup is ever pending. *)
Theorem X20_body_untouched_without_lock (p : NavbarProps) (w : Window)
    (body0 : gmap string string) (focus : NodeId) (evs : list Event) :
  Cfg.disableBodyScrollOnOpen p = false →
  bodyStyle (run p w (mount p w body0 focus) evs) = body0
  ∧ lockCleanup (run p w (mount p w body0 focus) evs) = None.
Proof.
  intros H.
  assert (Hgen : ∀ y,
    bodyStyle (run p w y evs) = bodyStyle y
    ∧ lockCleanup (run p w y evs) = lockCleanup y).
  { induction evs as [|ev evs IH]; intros y; [done|].
    cbn. unfold run in IH. destruct (IH (step p w y ev)) as [-> ->].
    by apply step_body_without_lock. }
  destruct (Hgen (mount p w body0 focus)) as [-> ->]. done.
Qed.

Lemma X20_body_untouched_without_lock_witness :
  Cfg.disableBodyScrollOnOpen Cases.bare = false
  ∧ isOpen (cells (run Cases.bare (Sample.page "")
                     (mount Cases.bare (Sample.page "") Sample.body Elsewhere)
                     [EvClickToggle])) = true
  ∧ bodyStyle (run Cases.bare (Sample.page "")
                 (mount Cases.bare (Sample.page "") Sample.body Elsewhere)
                 [EvClickToggle]) = Sample.body.
Proof.
  split; [reflexivity|]. split; [reflexivity|].
  apply (X20_body_untouched_without_lock Cases.bare (Sample.page "")
           Sample.body Elsewhere [EvClickToggle]).
  reflexivity.
Defined.

(** ** The focus trap over whole runs *)

Lemma dispatch_trapListener p w ev y :
  trapListener (dispatch p w ev y) = trapListener y.
Proof.
  destruct ev as [q| | | |l|e dflt|i es|]; cbn [dispatch]; try done.
  - unfold handleLinkClick.
    destruct (Cfg.closeOnRouteChange p), (onNavigate p),
      (Cfg.enableScrollSpy p); try done; by destruct (getElementById _ _).
  - unfold keyDown, handleEscape.
    by destruct (String.eqb (key e) "Escape" && _).
  - by case_bool_decide.
  - by destruct (timers y).
Qed.

Lemma trapOf_isOpen p s s' : isOpen s = isOpen s' → trapOf p s = trapOf p s'.
Proof. unfold trapOf. by intros ->. Qed.

Lemma trap_step p w y ev :
  trapListener y = trapOf p (cells y) →
  trapListener (step p w y ev) = trapOf p (cells (step p w y ev)).
Proof.
  intros Hy. rewrite step_cells. unfold step, commit, commitTrap.
  rewrite commitLock_cells.
  pose proof (proj2 (commitLock_focus p w (cells y) (dispatch p w ev y)))
    as Hl. rewrite dispatch_trapListener in Hl.
  destruct (Cfg.trapFocus p) eqn:Et; cbn [negb].
  - destruct (Bool.eqb (isOpen (cells y)) (isOpen (cells (dispatch p w ev y))))
      eqn:E.
    + apply Bool.eqb_prop in E. rewrite Hl, Hy. by apply trapOf_isOpen.
    + cbn [trapListener]. unfold trapOf, useFocusTrap_effect, menuRef.
      rewrite Et. by destruct (isOpen (cells (dispatch p w ev y))).
  - rewrite Hl, Hy. unfold trapOf. by rewrite Et.
Qed.

Lemma trap_run p w body focus evs :
  trapListener (run p w (mount p w body focus) evs)
  = trapOf p (cells (run p w (mount p w body focus) evs)).
Proof.
  assert (Hgen : ∀ y, trapListener y = trapOf p (cells y) →
    trapListener (run p w y evs) = trapOf p (cells (run p w y evs))).
  { induction evs as [|ev evs IH]; intros y Hy; [done|].
    cbn. apply IH. by apply trap_step. }
  apply Hgen. unfold trapOf. cbn. by rewrite andb_false_r.
Qed.

(** X5.  In every state the mounted component can reach, [handleTab] is
    registered on the panel exactly while focus trapping is configured
    and the panel is open, and it then holds the first and the last
    focusable element of the panel as rendered for the current links. *)
Theorem X5_trap_registered_exactly_while_open (p : NavbarProps) (w : Window)
    (body : gmap string string) (focus : NodeId) (evs : list Event) :
  trapListener (run p w (mount p w body focus) evs)
  = if Cfg.trapFocus p && isOpen (cells (run p w (mount p w body focus) evs))
    then Some (trapClosure (panelDescendants (links p)))
    else None.
Proof. apply trap_run. Qed.

Lemma keyDown_tab_default p w z shift dflt :
  match trapListener z, activeElement z with
  | Some c, PanelNode _ =>
      handleTab c {| key := "Tab"; shiftKey := shift |} (activeElement z)
  | _, _ => (false, activeElement z)
  end = (false, activeElement z) →
  activeElement
    (step p w z (EvKeyDown {| key := "Tab"; shiftKey := shift |} dflt))
  = dflt.
Proof.
  intros H. unfold step. cbn [dispatch]. unfold keyDown. rewrite H.
  cbn [fst snd key String.eqb Ascii.eqb Bool.eqb].
  rewrite handleEscape_tab. by rewrite commit_kept.
Qed.

(** X6.  With focus trapping switched off, no listener is ever registered
    on the panel, opening the panel leaves the focus where it was, and a
    Tab or Shift+Tab press always ends where the browser moves focus by
    default. *)
Theorem X6_no_trap_when_switched_off (p : NavbarProps) (w : Window)
    (body : gmap string string) (focus : NodeId) (evs : list Event)
    (shift : bool) (dflt : NodeId) :
  Cfg.trapFocus p = false →
  trapListener (run p w (mount p w body focus) evs) = None
  ∧ activeElement (step p w (run p w (mount p w body focus) evs)
                     EvClickToggle)
    = activeElement (run p w (mount p w body focus) evs)
  ∧ activeElement
      (step p w (run p w (mount p w body focus) evs)
         (EvKeyDown {| key := "Tab"; shiftKey := shift |} dflt))
    = dflt.
Proof.
  intros Ht.
  assert (Hn : trapListener (run p w (mount p w body focus) evs) = None).
  { rewrite trap_run. unfold trapOf. by rewrite Ht. }
  split; [done|]. split.
  - unfold step, commit, commitTrap. rewrite Ht. cbn [negb].
    by rewrite (proj1 (commitLock_focus _ _ _ _)).
  - apply keyDown_tab_default. by rewrite Hn.
Qed.

Lemma X6_no_trap_when_switched_off_witness :
  Cfg.trapFocus Cases.bare = false
  ∧ activeElement
      (step Cases.bare (Sample.page "")
         (run Cases.bare (Sample.page "")
            (mount Cases.bare (Sample.page "") Sample.body ToggleButton) [])
         EvClickToggle)
    = ToggleButton.
Proof.
  split; [reflexivity|].
  refine (eq_trans
    (proj1 (proj2 (X6_no_trap_when_switched_off Cases.bare (Sample.page "")
                     Sample.body ToggleButton [] false Elsewhere _))) _);
    reflexivity.
Defined.

(** X7.  The trap only acts at the two ends of the panel: with its
    listener registered, Tab pressed anywhere but on the last focusable
    element, and Shift+Tab pressed anywhere but on the close button,
    leave the move to the browser. *)
Theorem X7_trap_acts_only_at_the_ends (p : NavbarProps) (w : Window)
    (z : Sys) (l : Element) (dflt : NodeId) :
  trapListener z = Some (trapClosure (panelDescendants (links p))) →
  last (querySelectorAll (panelDescendants (links p))) = Some l →
  (activeElement z ≠ node l →
   activeElement (step p w z (EvKeyDown tabKey dflt)) = dflt)
  ∧ (activeElement z ≠ node closeButton →
     activeElement (step p w z (EvKeyDown shiftTabKey dflt)) = dflt).
Proof.
  intros Hz Hl.
  assert (Hfirst : firstElement (trapClosure (panelDescendants (links p)))
                   = Some closeButton).
  { unfold trapClosure. cbn [firstElement].
    by rewrite querySelectorAll_panel. }
  assert (Hlast : lastElement (trapClosure (panelDescendants (links p)))
                  = Some l) by done.
  split; intros Hne; apply keyDown_tab_default; rewrite Hz;
    destruct (activeElement z) as [n| |] eqn:Ea; try done;
    unfold handleTab; cbn [key shiftKey String.eqb Ascii.eqb Bool.eqb negb];
    rewrite ?Hlast, ?Hfirst; cbn [isActiveElement];
    by rewrite bool_decide_false.
Qed.

Lemma X7_trap_acts_only_at_the_ends_witness :
  trapListener (withFocus (PanelNode 6) (Sample.opened false ""))
  = Some (trapClosure (panelDescendants (links (Sample.props false))))
  ∧ last (querySelectorAll (panelDescendants (links (Sample.props false))))
    = Some (panelElement 8 "a" [("href", "#about")])
  ∧ activeElement
      (step (Sample.props false) (Sample.page "")
         (withFocus (PanelNode 6) (Sample.opened false ""))
         (EvKeyDown tabKey (PanelNode 8)))
    = PanelNode 8.
Proof.
  split; [reflexivity|]. split; [reflexivity|].
  apply (X7_trap_acts_only_at_the_ends (Sample.props false) (Sample.page "")
           (withFocus (PanelNode 6) (Sample.opened false ""))
           (panelElement 8 "a" [("href", "#about")]) (PanelNode 8));
    [reflexivity | reflexivity | discriminate].
Defined.

(** ** What the trap finds in the panel *)

Lemma matchesFocusable_li n : matchesFocusable (panelElement n "li" []) = false.
Proof. by vm_compute. Qed.

Lemma matchesFocusable_anchor i l : matchesFocusable (panelAnchor i l) = true.
Proof.
  unfold matchesFocusable, panelAnchor, panelElement, hasAttr.
  cbn [tagName attributes list_to_map foldr fst snd uncurry].
  rewrite bool_decide_true; [done|].
  rewrite lookup_insert_eq. eauto.
Qed.

Lemma querySelectorAll_links k ls :
  querySelectorAll (mjoin (imap (λ i, panelLink (k + i)) ls))
  = imap (λ i, panelAnchor (k + i)) ls.
Proof.
  revert k. induction ls as [|l ls IH]; intros k; [done|].
  rewrite !imap_cons. cbn [mjoin list_join]. unfold querySelectorAll in *.
  rewrite filter_app.
  assert (Hl : filter (λ e, matchesFocusable e = true) (panelLink (k + 0) l)
               = [panelAnchor (k + 0) l]).
  { unfold panelLink. rewrite filter_cons_False, filter_cons_True; [done|..].
    - apply (matchesFocusable_anchor (k + 0) l).
    - by rewrite matchesFocusable_li. }
  rewrite Hl. cbn [app]. f_equal.
  rewrite (imap_ext _ (λ i, panelLink (S k + i)))
    by (intros i x _; cbn; f_equal; lia).
  rewrite (imap_ext (_ ∘ S) (λ i, panelAnchor (S k + i)))
    by (intros i x _; cbn; f_equal; lia).
  apply IH.
Qed.

(** X19.  The elements the trap selects in the rendered panel are the
    close button followed by one anchor per link, in the order of the
    links and carrying the link's href; nothing else in the panel is
    selected.  So there is always a first focusable element, and there
    are as many as links plus one. *)
Theorem X19_panel_focusables (ls : list NavLink) :
  querySelectorAll (panelDescendants ls) = closeButton :: imap panelAnchor ls
  ∧ length (querySelectorAll (panelDescendants ls)) = S (length ls).
Proof.
  assert (H : querySelectorAll (panelDescendants ls)
              = closeButton :: imap panelAnchor ls).
  { rewrite querySelectorAll_panel. f_equal.
    apply (querySelectorAll_links 0 ls). }
  split; [done|]. rewrite H. cbn [length]. by rewrite length_imap.
Qed.

Lemma routeAtMount_no_links p w :
  links p = [] → routeAtMount p w = locationHash w.
Proof.
  intros H. unfold routeAtMount. rewrite H. cbn.
  destruct (truthy (locationHash w)) eqn:E; [done|].
  by apply truthy_false in E.
Qed.

(** X16.  An empty link list is handled everywhere: mounting sets the
    route to the location hash (the empty string without one) and creates
    no observer, a render returns a view with no links, the only
    focusable element of the panel is the close button, and with the trap
    registered Tab and Shift+Tab pressed on the close button keep the
    focus on it. *)
Theorem X16_empty_link_list (p : NavbarProps) (w : Window)
    (body : gmap string string) (focus : NodeId) :
  links p = [] →
  currentRoute (cells (mount p w body focus)) = locationHash w
  ∧ observers (mount p w body focus) = []
  ∧ (∀ env s, ∃ v, Navbar p env s = inr v ∧ v_desktopLinks v = [])
  ∧ querySelectorAll (panelDescendants (links p)) = [closeButton]
  ∧ ∀ z shift dflt,
      trapListener z = Some (trapClosure (panelDescendants (links p))) →
      activeElement z = node closeButton →
      activeElement
        (step p w z (EvKeyDown {| key := "Tab"; shiftKey := shift |} dflt))
      = node closeButton.
Proof.
  intros H.
  split; [by apply routeAtMount_no_links|].
  split.
  { cbn [mount observers]. unfold useScrollSpy_effect, sectionIds.
    rewrite H. by destruct (negb _). }
  split.
  { intros env s. unfold Navbar. rewrite H.
    destruct env; cbn; eauto. }
  rewrite H. split; [by vm_compute|].
  intros z shift dflt Hz Ha.
  apply keyDown_tab_step; [done|].
  eexists _, 1%nat. split; [exact Hz|]. split; [done|].
  by destruct shift.
Qed.

Lemma X16_empty_link_list_witness :
  links Cases.noLinks = []
  ∧ currentRoute
      (cells (mount Cases.noLinks (Sample.page "#top") Sample.body Elsewhere))
    = "#top".
Proof.
  split; [reflexivity|].
  refine (eq_trans
    (proj1 (X16_empty_link_list Cases.noLinks (Sample.page "#top")
              Sample.body Elsewhere _)) _); reflexivity.
Defined.

(** ** Cells over whole runs *)

Lemma dispatch_isScrolled p w ev y :
  isScrolled (cells (dispatch p w ev y))
  = match ev with
    | EvScroll q => js_gt q (Cfg.scrollThreshold p)
    | _ => isScrolled (cells y)
    end.
Proof.
  destruct ev as [q| | | |l|e dflt|i es|]; cbn [dispatch]; try done.
  - rewrite handleLinkClick_cells. by destruct (Cfg.closeOnRouteChange p).
  - unfold keyDown, handleEscape.
    by destruct (String.eqb (key e) "Escape" && _).
  - case_bool_decide; [|done]. cbn. unfold observerCallback.
    destruct (es !! 0%nat) as [en|]; [|done].
    by destruct (isIntersecting en).
  - by destruct (timers y).
Qed.

Lemma dispatch_currentRoute p w ev y :
  currentRoute (cells (dispatch p w ev y))
  = match ev with
    | EvClickLink l => href l
    | _ => currentRoute (cells y)
    end.
Proof.
  destruct ev as [q| | | |l|e dflt|i es|]; cbn [dispatch]; try done.
  - by rewrite handleLinkClick_cells.
  - unfold keyDown, handleEscape.
    by destruct (String.eqb (key e) "Escape" && _).
  - case_bool_decide; [|done]. cbn. unfold observerCallback.
    destruct (es !! 0%nat) as [en|]; [|done].
    by destruct (isIntersecting en).
  - by destruct (timers y).
Qed.

(** X8.  After any events, the scrolled flag says whether the scroll
    position the listener saw last (the position at mount, if no scroll
    event followed) is strictly above the threshold; no other event
    touches it. *)
Theorem X8_scrolled_flag_follows_last_scroll (p : NavbarProps) (w : Window)
    (body : gmap string string) (focus : NodeId) (evs : list Event) :
  isScrolled (cells (run p w (mount p w body focus) evs))
  = js_gt (lastScroll evs (scrollY w)) (Cfg.scrollThreshold p).
Proof.
  assert (Hgen : ∀ y pos,
    isScrolled (cells y) = js_gt pos (Cfg.scrollThreshold p) →
    isScrolled (cells (run p w y evs))
    = js_gt (lastScroll evs pos) (Cfg.scrollThreshold p)).
  { induction evs as [|ev evs IH]; intros y pos Hy; [done|].
    cbn [run foldl]. unfold run in IH.
    destruct ev; cbn [lastScroll]; apply IH;
      by rewrite step_cells, dispatch_isScrolled. }
  by apply Hgen.
Qed.

(** X9.  After any events, the tracked route is the href of the link
    clicked last, and the route set at mount (the location hash, else the
    href of the first link, else the empty string) if no link was
    clicked; no other event touches it. *)
Theorem X9_route_follows_last_click (p : NavbarProps) (w : Window)
    (body : gmap string string) (focus : NodeId) (evs : list Event) :
  currentRoute (cells (run p w (mount p w body focus) evs))
  = lastClicked evs (routeAtMount p w).
Proof.
  assert (Hgen : ∀ y r,
    currentRoute (cells y) = r →
    currentRoute (cells (run p w y evs)) = lastClicked evs r).
  { induction evs as [|ev evs IH]; intros y r Hy; [done|].
    cbn [run foldl]. unfold run in IH.
    destruct ev; cbn [lastClicked]; apply IH;
      by rewrite step_cells, dispatch_currentRoute. }
  by apply Hgen.
Qed.

(** ** Observers over whole runs *)

Lemma dispatch_observers p w ev y :
  observers (dispatch p w ev y) = observers y.
Proof.
  destruct ev as [q| | | |l|e dflt|i es|]; cbn [dispatch]; try done.
  - unfold handleLinkClick.
    destruct (Cfg.closeOnRouteChange p), (onNavigate p),
      (Cfg.enableScrollSpy p); try done; by destruct (getElementById _ _).
  - unfold keyDown, handleEscape.
    by destruct (String.eqb (key e) "Escape" && _).
  - by case_bool_decide.
  - by destruct (timers y).
Qed.

Lemma observers_run p w evs y : observers (run p w y evs) = observers y.
Proof.
  revert y. induction evs as [|ev evs IH]; intros y; [done|].
  cbn [run foldl]. unfold run in IH. rewrite IH.
  unfold step. by rewrite observers_commit, dispatch_observers.
Qed.

Lemma observers_mount_elem p w body focus i :
  i ∈ observers (mount p w body focus)
  ↔ Cfg.enableScrollSpy p = true
    ∧ (∃ l, l ∈ links p ∧ id l = i)
    ∧ i ∈ sectionElements w.
Proof.
  cbn [mount observers]. unfold useScrollSpy_effect, sectionIds.
  destruct (Cfg.enableScrollSpy p); cbn [negb].
  - rewrite list_elem_of_omap. split.
    + intros (j & Hj & Hg). apply getElementById_Some in Hg as [-> Hs].
      split; [done|]. split; [|done].
      apply list_elem_of_In, in_map_iff in Hj as (l & Hl & Hin).
      exists l. by rewrite list_elem_of_In.
    + intros (_ & (l & Hl & <-) & Hs). exists (id l). split.
      * apply list_elem_of_In, in_map_iff. exists l.
        by rewrite <- list_elem_of_In.
      * by apply getElementById_Some.
  - rewrite elem_of_nil. split; [done|]. by intros [? _].
Qed.

Lemma omap_getElementById w (ids : list string) :
  omap (getElementById w) ids
  = filter (λ i, i ∈ sectionElements w) ids.
Proof.
  induction ids as [|i ids IH]; [done|]. cbn [omap list_omap].
  unfold getElementById at 1. case_bool_decide.
  - rewrite filter_cons_True by done. by rewrite <- IH.
  - rewrite filter_cons_False by done. by rewrite <- IH.
Qed.

(** X10.  The observers the effect builds at mount are, in the order of
    the links, the ids of the links whose element the document has, and
    none when scroll-spy is disabled; a link whose section is missing is
    skipped without failure. *)
Theorem X10_observed_sections (p : NavbarProps) (w : Window)
    (body : gmap string string) (focus : NodeId) (i : string) :
  observers (mount p w body focus)
  = (if Cfg.enableScrollSpy p
     then filter (λ i, i ∈ sectionElements w) (map id (links p))
     else [])
  ∧ (i ∈ observers (mount p w body focus)
     ↔ Cfg.enableScrollSpy p = true
       ∧ (∃ l, l ∈ links p ∧ id l = i)
       ∧ i ∈ sectionElements w).
Proof.
  split; [|apply observers_mount_elem].
  cbn [mount observers]. unfold useScrollSpy_effect, sectionIds.
  destruct (Cfg.enableScrollSpy p); [|done].
  apply omap_getElementById.
Qed.

Lemma step_without_observers p w y ev :
  observers y = [] →
  activeId (cells (step p w y ev)) = activeId (cells y)
  ∧ observers (step p w y ev) = [].
Proof.
  intros Ho. split.
  - rewrite step_cells. destruct (isIntersect ev) eqn:E.
    + destruct ev; try done. cbn [dispatch]. rewrite Ho.
      by rewrite bool_decide_false by apply not_elem_of_nil.
    + by apply dispatch_activeId.
  - unfold step. by rewrite observers_commit, dispatch_observers.
Qed.

(** X11.  With scroll-spy disabled no observer exists, so a report of an
    intersection changes nothing at all, and the scroll-spy identifier
    stays the empty string whatever happens. *)
Theorem X11_reports_ignored_without_spy (p : NavbarProps) (w : Window)
    (body : gmap string string) (focus : NodeId) (evs : list Event)
    (i : string) (es : list IntersectionObserverEntry) :
  Cfg.enableScrollSpy p = false →
  activeId (cells (run p w (mount p w body focus) evs)) = ""
  ∧ step p w (run p w (mount p w body focus) evs) (EvIntersect i es)
    = run p w (mount p w body focus) evs.
Proof.
  intros Hs.
  assert (Hgen : ∀ y, observers y = [] →
    activeId (cells (run p w y evs)) = activeId (cells y)).
  { induction evs as [|ev evs IH]; intros y Hy; [done|].
    cbn [run foldl]. unfold run in IH.
    destruct (step_without_observers p w y ev Hy) as [Ha Ho].
    by rewrite IH. }
  assert (Hm : observers (mount p w body focus) = []).
  { cbn [mount observers]. unfold useScrollSpy_effect. by rewrite Hs. }
  split; [by rewrite Hgen|].
  unfold step. cbn [dispatch]. rewrite observers_run, Hm.
  rewrite bool_decide_false by apply not_elem_of_nil. apply commit_same.
Qed.

Lemma X11_reports_ignored_without_spy_witness :
  Cfg.enableScrollSpy (Sample.props false) = false
  ∧ step (Sample.props false) (Sample.page "")
      (run (Sample.props false) (Sample.page "")
         (mount (Sample.props false) (Sample.page "") Sample.body Elsewhere)
         [EvClickToggle])
      (EvIntersect "about" [Sample.entry true])
    = run (Sample.props false) (Sample.page "")
        (mount (Sample.props false) (Sample.page "") Sample.body Elsewhere)
        [EvClickToggle].
Proof.
  split; [reflexivity|].
  apply (X11_reports_ignored_without_spy (Sample.props false)
           (Sample.page "") Sample.body Elsewhere [EvClickToggle] "about"
           [Sample.entry true]).
  reflexivity.
Defined.

(** ** The section a click scrolls to *)

Lemma replaceHash_noHash s : noHash s = true → replaceHash s = s.
Proof.
  induction s as [|c r IH]; [done|]. cbn [noHash replaceHash].
  destruct (Ascii.eqb c "#"%char); [done|]. cbn [negb andb].
  intros Hr. by rewrite IH.
Qed.

Lemma replaceHash_first a b :
  noHash a = true → replaceHash (a +:+ String "#" b) = a +:+ b.
Proof.
  induction a as [|c r IH]; [done|]. simpl.
  destruct (Ascii.eqb c "#"%char); [done|]. simpl.
  intros Hr. by rewrite (IH Hr).
Qed.

(** X12.  [href.replace("#", "")] drops the first [#] and nothing else: a
    string without [#] is returned as it is, and in a string with one the
    text before the first [#] and all the text after it, further [#]
    included, are kept. *)
Theorem X12_replace_drops_first_hash (a b : string) :
  noHash a = true →
  replaceHash a = a
  ∧ replaceHash (a +:+ String "#" b) = a +:+ b.
Proof.
  intros H. split; [by apply replaceHash_noHash|by apply replaceHash_first].
Qed.

Lemma X12_replace_drops_first_hash_witness :
  noHash "/docs" = true
  ∧ replaceHash "/docs" = "/docs"
  ∧ replaceHash "/docs#a#b" = "/docsa#b".
Proof.
  split; [reflexivity|].
  apply (X12_replace_drops_first_hash "/docs" "a#b"). reflexivity.
Defined.

Lemma callsSince_click p w y l :
  callsSince y (step p w y (EvClickLink l)) = clickCalls p w (href l).
Proof.
  unfold callsSince. rewrite step_calls. cbn [dispatch].
  rewrite handleLinkClick_calls. apply drop_app_length.
Qed.

(** X13.  For a link whose href is [#] followed by its id, with scroll-spy
    enabled and no navigation callback, a click scrolls to the section
    with the link's id, and it does so exactly when that section is one
    the observers watch; a link whose section is missing scrolls
    nowhere. *)
Theorem X13_click_scrolls_to_observed_section (p : NavbarProps) (w : Window)
    (body : gmap string string) (focus : NodeId) (y : Sys) (l : NavLink) :
  onNavigate p = false →
  Cfg.enableScrollSpy p = true →
  l ∈ links p →
  href l = String "#" (id l) →
  (CallScrollIntoViewSmooth (id l) ∈ callsSince y (step p w y (EvClickLink l))
   ↔ id l ∈ observers (mount p w body focus))
  ∧ ∀ el, CallScrollIntoViewSmooth el
          ∈ callsSince y (step p w y (EvClickLink l)) → el = id l.
Proof.
  intros Hn Hs Hl Hh. rewrite callsSince_click.
  assert (Hr : replaceHash (href l) = id l).
  { rewrite Hh. cbn. done. }
  split.
  - rewrite clickCalls_scroll, Hr, getElementById_Some, observers_mount_elem.
    split.
    + intros (_ & _ & _ & Hin). eauto.
    + intros (_ & _ & Hin). done.
  - intros el. rewrite clickCalls_scroll, Hr, getElementById_Some.
    by intros (_ & _ & -> & _).
Qed.

Lemma X13_click_scrolls_to_observed_section_witness :
  onNavigate (Sample.props true) = false
  ∧ Cfg.enableScrollSpy (Sample.props true) = true
  ∧ href Sample.about = String "#" (id Sample.about)
  ∧ "about" ∈ observers (Sample.mounted true "")
  ∧ CallScrollIntoViewSmooth "about"
    ∈ callsSince (Sample.mounted true "")
        (step (Sample.props true) (Sample.page "") (Sample.mounted true "")
           (EvClickLink Sample.about)).
Proof.
  split; [reflexivity|]. split; [reflexivity|]. split; [reflexivity|].
  assert (Ho : "about" ∈ observers (Sample.mounted true "")).
  { change ("about" ∈ ["hero"; "about"]). repeat constructor. }
  split; [exact Ho|].
  apply (X13_click_scrolls_to_observed_section (Sample.props true)
           (Sample.page "") Sample.body Elsewhere
           (Sample.mounted true "") Sample.about);
    [reflexivity | reflexivity | repeat constructor | reflexivity
    | exact Ho].
Defined.

(** ** Where the logged calls come from *)

Lemma closeMenu_calls y :
  calls (closeMenu y) = (calls y ++ [CallSetTimeoutFocusButton 100])%list.
Proof. done. Qed.

Lemma dispatch_calls_elem p w ev y c :
  c ∈ calls (dispatch p w ev y) →
  c ∈ calls y ∨ c = CallSetTimeoutFocusButton 100
  ∨ ∃ l, ev = EvClickLink l ∧ c ∈ clickCalls p w (href l).
Proof.
  destruct ev as [q| | | |l|e dflt|i es|]; cbn [dispatch]; auto.
  - rewrite closeMenu_calls, elem_of_app, list_elem_of_singleton. tauto.
  - unfold handleBackdropClick.
    rewrite closeMenu_calls, elem_of_app, list_elem_of_singleton. tauto.
  - rewrite handleLinkClick_calls, elem_of_app. intros [H|H]; eauto.
  - unfold keyDown, handleEscape. cbn [withFocus cells].
    destruct (String.eqb (key e) "Escape" && isOpen (cells y)); auto.
    rewrite closeMenu_calls, elem_of_app, list_elem_of_singleton. cbn. tauto.
  - case_bool_decide; auto.
  - destruct (timers y); auto.
Qed.

Lemma clickCalls_origin p w l c :
  c ∈ clickCalls p w (href l) → callOrigin p w [EvClickLink l] c.
Proof.
  destruct c as [h|el|ms]; cbn [callOrigin].
  - rewrite clickCalls_onNavigate. intros [? ->]. split; [done|].
    exists l. split; [constructor|done].
  - rewrite clickCalls_scroll, getElementById_Some.
    intros (? & ? & -> & ?). do 3 (split; [done|]).
    exists l. split; [constructor|done].
  - unfold clickCalls. rewrite elem_of_app.
    destruct (Cfg.closeOnRouteChange p), (onNavigate p),
      (Cfg.enableScrollSpy p);
      try destruct (getElementById w (replaceHash (href l)));
      rewrite ?elem_of_cons, ?elem_of_nil; intuition congruence.
Qed.

Lemma callOrigin_mono p w evs evs' c :
  (∀ ev, ev ∈ evs → ev ∈ evs') →
  callOrigin p w evs c → callOrigin p w evs' c.
Proof.
  intros Hsub. destruct c as [h|el|ms]; cbn [callOrigin]; [| |done].
  - intros (? & l & Hl & ?). eauto 6.
  - intros (? & ? & ? & l & Hl & ?). eauto 8.
Qed.

Lemma run_calls_origin p w evs y c :
  c ∈ calls (run p w y evs) → c ∈ calls y ∨ callOrigin p w evs c.
Proof.
  revert y. induction evs as [|ev evs IH]; intros y; [by left|].
  cbn [run foldl]. unfold run in IH. intros H.
  destruct (IH _ H) as [Hc|Hc].
  - rewrite step_calls in Hc.
    destruct (dispatch_calls_elem p w ev y c Hc) as [?|[->|(l & -> & Hl)]].
    + by left.
    + by right.
    + right. apply (callOrigin_mono p w [EvClickLink l]).
      * intros ev' ->%list_elem_of_singleton. constructor.
      * by apply clickCalls_origin.
  - right. apply (callOrigin_mono p w evs); [|done].
    intros ev' Hev. by constructor.
Qed.

(** X14.  Whatever has happened since mount, every call in the log has a
    cause: the navigation callback is called only if the caller supplied
    one, and only with the href of a link that was clicked; a smooth
    scroll happens only without a callback and with scroll-spy enabled,
    and only to an element of the page named by the href of a clicked
    link without its first [#]; every timer is set for 100 ms. *)
Theorem X14_every_call_has_a_cause (p : NavbarProps) (w : Window)
    (body : gmap string string) (focus : NodeId) (evs : list Event)
    (c : Call) :
  c ∈ calls (run p w (mount p w body focus) evs) →
  match c with
  | CallOnNavigate h =>
      onNavigate p = true ∧ ∃ l, EvClickLink l ∈ evs ∧ h = href l
  | CallScrollIntoViewSmooth el =>
      onNavigate p = false ∧ Cfg.enableScrollSpy p = true
      ∧ el ∈ sectionElements w
      ∧ ∃ l, EvClickLink l ∈ evs ∧ el = replaceHash (href l)
  | CallSetTimeoutFocusButton ms => ms = 100%nat
  end.
Proof.
  intros H. destruct (run_calls_origin p w evs _ c H) as [Hm|Ho].
  - cbn in Hm. by apply elem_of_nil in Hm.
  - exact Ho.
Qed.

Lemma X14_every_call_has_a_cause_witness :
  CallOnNavigate "#about"
  ∈ calls (run Cases.bare (Sample.page "")
             (mount Cases.bare (Sample.page "") Sample.body Elsewhere)
             [EvClickLink Sample.about])
  ∧ onNavigate Cases.bare = true.
Proof.
  assert (H : CallOnNavigate "#about"
              ∈ calls (run Cases.bare (Sample.page "")
                         (mount Cases.bare (Sample.page "") Sample.body
                            Elsewhere)
                         [EvClickLink Sample.about])).
  { change (CallOnNavigate "#about" ∈ [CallOnNavigate "#about"]).
    constructor. }
  split; [exact H|].
  exact (proj1 (X14_every_call_has_a_cause Cases.bare (Sample.page "")
                  Sample.body Elsewhere [EvClickLink Sample.about]
                  (CallOnNavigate "#about") H)).
Defined.

(** ** Rendering in a browser *)

(** X15.  In a browser a render never throws; its duration is zero when
    the user prefers reduced motion and [animateDuration / 1000]
    otherwise, and everything else it shows is what a render of the same
    cells shows without a browser.  Without the preference the two
    renders are the same. *)
Theorem X15_reduced_motion_only_changes_duration (p : NavbarProps)
    (w : Window) (s : NavbarState) :
  ∃ v v0,
    Navbar p (Some w) s = inr v
    ∧ Navbar p None s = inr v0
    ∧ v_duration v
      = (if reducedMotion w then 0%Q
         else (Cfg.animateDuration p / (1000 # 1))%Q)
    ∧ v_bar v = v_bar v0
    ∧ v_ariaLabel v = v_ariaLabel v0
    ∧ v_breakpointClass v = v_breakpointClass v0
    ∧ v_desktopLinks v = v_desktopLinks v0
    ∧ v_ariaExpanded v = v_ariaExpanded v0
    ∧ v_panel v = v_panel v0
    ∧ (reducedMotion w = false → v = v0).
Proof.
  unfold Navbar. cbn [prefersReducedMotion typeofWindowDefined
                      matchMediaReduce].
  eexists _, _. split; [reflexivity|]. split; [reflexivity|].
  cbn [v_duration v_bar v_ariaLabel v_breakpointClass v_desktopLinks
       v_ariaExpanded v_panel]. unfold durationOf.
  do 7 (split; [done|]). by intros ->.
Qed.

Lemma X15_reduced_motion_only_changes_duration_witness :
  reducedMotion (Sample.page "") = false
  ∧ Navbar (Sample.props false) (Some (Sample.page "")) initialState
    = renderOnServer (Sample.props false).
Proof.
  split; [reflexivity|].
  destruct (X15_reduced_motion_only_changes_duration (Sample.props false)
              (Sample.page "") initialState)
    as (v & v0 & Hv & Hv0 & _ & _ & _ & _ & _ & _ & _ & Heq).
  unfold renderOnServer. rewrite Hv, Hv0. f_equal. apply Heq. reflexivity.
Defined.

(** ** The link of the visible section *)

(** X22.  With scroll-spy enabled, when the observer of a link's section
    reports that the section intersects, that link is rendered active,
    and the links rendered active are exactly those whose id or href is
    the id of that section. *)
Theorem X22_intersecting_section_marks_its_link (p : NavbarProps)
    (w : Window) (y : Sys) (l : NavLink)
    (es : list IntersectionObserverEntry) :
  Cfg.enableScrollSpy p = true →
  id l ∈ observers y →
  reportIntersecting {| target := id l; entries := es |} = true →
  isActive p (cells (step p w y (EvIntersect (id l) es))) l = true
  ∧ ∀ l', isActive p (cells (step p w y (EvIntersect (id l) es))) l' = true
          ↔ href l' = id l ∨ id l' = id l.
Proof.
  intros Hs Ho Hr.
  destruct (step_report p w y {| target := id l; entries := es |} Ho)
    as [Hc _].
  unfold reportEvent in Hc. cbn [target entries] in Hc.
  assert (Ha : activeLink p (cells (step p w y (EvIntersect (id l) es)))
               = id l).
  { unfold activeLink. rewrite Hs, Hc, deliver_cases, Hr. done. }
  split.
  - apply isActive_true. by right.
  - intros l'. rewrite isActive_true, Ha. split; intros [H|H]; auto.
Qed.

Lemma X22_intersecting_section_marks_its_link_witness :
  Cfg.enableScrollSpy (Sample.props true) = true
  ∧ id Sample.about ∈ observers (Sample.mounted true "")
  ∧ isActive (Sample.props true)
      (cells (step (Sample.props true) (Sample.page "")
                (Sample.mounted true "")
                (EvIntersect (id Sample.about) [Sample.entry true])))
      Sample.about
    = true.
Proof.
  assert (Ho : id Sample.about ∈ observers (Sample.mounted true "")).
  { change ("about" ∈ ["hero"; "about"]). repeat constructor. }
  split; [reflexivity|]. split; [exact Ho|].
  refine (proj1 (X22_intersecting_section_marks_its_link (Sample.props true)
                   (Sample.page "") (Sample.mounted true "") Sample.about
                   [Sample.entry true] _ Ho _)); reflexivity.
Defined.
